(** * MandalaMind device-data relay: the NeuroSky source adapter, the
      availability probe and the fan-out hub

    A shallow embedding of [server/services/neurosky.ts] (class
    [NeuroSkyService]) and of the [broadcast] function of the route
    module, with the properties of the relay stated over it.

    Numbers.  JavaScript numbers are binary64 floats.  Every finite float
    is a rational, so numbers are embedded as [Q] and compared with [==];
    [undefined] is [None].  The arithmetic of the signal-quality mapping
    is exact in binary64 on whole and half levels, which is what the
    headset's 0..200 scale produces; between them a float result may be
    rounded, so properties that need exact values (strict order, the
    thresholds of the mapping) are stated for whole levels, and those
    stated for every level are order properties that rounding keeps.
    The synthetic values pass through [Math.round] and a clamp. *)

From Stdlib Require Import ZArith QArith Qround Qminmax Lia Lqa String.
From stdpp Require Import base list.

Local Open Scope Q_scope.

(** ** JavaScript operators used by the service *)

Module Js.

(** Truthiness of a value that is a number or [undefined]. *)
Definition truthy (v : option Q) : bool :=
  match v with
  | Some q => negb (Qeq_bool q 0)
  | None => false
  end.

(** [a || b] on such values. *)
Definition or (a b : option Q) : option Q :=
  if truthy a then a else b.

(** [v !== undefined]. *)
Definition defined (v : option Q) : bool :=
  match v with
  | Some _ => true
  | None => false
  end.

(** [a || d] where [d] is a number literal: the result is a number. *)
Definition orNum (a : option Q) (d : Q) : Q :=
  match a with
  | Some q => if Qeq_bool q 0 then d else q
  | None => d
  end.

(** [Math.round]: nearest integer, ties towards plus infinity. *)
Definition round (x : Q) : Q := inject_Z (Qfloor (x + (1 # 2))).

Definition max (a b : Q) : Q := Qmax a b.
Definition min (a b : Q) : Q := Qmin a b.

End Js.

(** ** Data model *)

(** [BrainwaveData] of the shared schema. *)
Record BrainwaveData := mkData {
  attention : Q;
  meditation : Q;
  signalQuality : Q;
  timestamp : Z
}.

(** [Partial<BrainwaveData>] as built by the message handler. *)
Record PartialData := mkPartial {
  p_attention : option Q;
  p_meditation : option Q;
  p_signalQuality : option Q
}.

(** The [eSense] object of a ThinkGear message. *)
Record ESense := mkESense {
  es_attention : option Q;
  es_meditation : option Q
}.

(** A parsed ThinkGear message; every member is optional. *)
Record ThinkGearMessage := mkMessage {
  eSense : option ESense;
  poorSignalLevel : option Q;
  blinkStrength : option Q;
  rawEeg : option Q
}.

(** [Math.max(0, 100 - (poorSignalLevel * 100 / 200))], line 102.  On a
    whole or half level the three operations are exact in binary64 and
    this is the value the code computes. *)
Definition quality (level : Q) : Q :=
  Js.max 0 (100 - (level * 100 / 200)).

(** ** The environment of the service: sockets and timers

    A [WebSocket] is a handle into the table of all sockets constructed so
    far, a [NodeJS.Timeout] a handle into the table of all timers created
    so far.  A handle the service has overwritten still denotes a live
    object of the runtime. *)

Inductive ReadyState := CONNECTING | OPEN | CLOSING | CLOSED.

Inductive TimerKind := ReconnectTimeout | DemoInterval.

Record Timer := mkTimer {
  kind : TimerKind;
  delay : Z;
  armed : bool
}.

(** Frames written to an upstream socket. *)
Inductive Frame :=
| ConfigFrame (enableRawOutput : bool) (format : string).

(** Events of the [EventEmitter] interface. *)
Inductive Emitted :=
| EvConnected
| EvDisconnected
| EvData (d : BrainwaveData)
| EvBlink (strength : Q)
| EvRawEeg (value : Q) (ts : Z)
| EvError (err : string).

Record NeuroSkyConfig := mkConfig {
  autoConnect : bool;
  demoMode : bool
}.

(** The private fields of [NeuroSkyService] (lines 13-18 and 20), then the
    runtime: socket table, timer table, frames sent upstream and the
    events emitted so far, oldest first. *)
Record Sys := mkSys {
  socket : option nat;
  isConnected : bool;
  reconnectInterval : option nat;
  currentData : option BrainwaveData;
  demoInterval : option nat;
  isDemoMode : bool;
  config : NeuroSkyConfig;
  sockets : list ReadyState;
  timers : list Timer;
  wire : list (nat * Frame);
  emitted : list Emitted
}.

Definition set_socket (v : option nat) (s : Sys) : Sys :=
  mkSys v (isConnected s) (reconnectInterval s) (currentData s)
        (demoInterval s) (isDemoMode s) (config s)
        (sockets s) (timers s) (wire s) (emitted s).

Definition set_isConnected (v : bool) (s : Sys) : Sys :=
  mkSys (socket s) v (reconnectInterval s) (currentData s)
        (demoInterval s) (isDemoMode s) (config s)
        (sockets s) (timers s) (wire s) (emitted s).

Definition set_reconnectInterval (v : option nat) (s : Sys) : Sys :=
  mkSys (socket s) (isConnected s) v (currentData s)
        (demoInterval s) (isDemoMode s) (config s)
        (sockets s) (timers s) (wire s) (emitted s).

Definition set_currentData (v : option BrainwaveData) (s : Sys) : Sys :=
  mkSys (socket s) (isConnected s) (reconnectInterval s) v
        (demoInterval s) (isDemoMode s) (config s)
        (sockets s) (timers s) (wire s) (emitted s).

Definition set_demoInterval (v : option nat) (s : Sys) : Sys :=
  mkSys (socket s) (isConnected s) (reconnectInterval s) (currentData s)
        v (isDemoMode s) (config s)
        (sockets s) (timers s) (wire s) (emitted s).

Definition set_isDemoMode (v : bool) (s : Sys) : Sys :=
  mkSys (socket s) (isConnected s) (reconnectInterval s) (currentData s)
        (demoInterval s) v (config s)
        (sockets s) (timers s) (wire s) (emitted s).

Definition set_config (v : NeuroSkyConfig) (s : Sys) : Sys :=
  mkSys (socket s) (isConnected s) (reconnectInterval s) (currentData s)
        (demoInterval s) (isDemoMode s) v
        (sockets s) (timers s) (wire s) (emitted s).

Definition set_sockets (v : list ReadyState) (s : Sys) : Sys :=
  mkSys (socket s) (isConnected s) (reconnectInterval s) (currentData s)
        (demoInterval s) (isDemoMode s) (config s)
        v (timers s) (wire s) (emitted s).

Definition set_timers (v : list Timer) (s : Sys) : Sys :=
  mkSys (socket s) (isConnected s) (reconnectInterval s) (currentData s)
        (demoInterval s) (isDemoMode s) (config s)
        (sockets s) v (wire s) (emitted s).

Definition set_wire (v : list (nat * Frame)) (s : Sys) : Sys :=
  mkSys (socket s) (isConnected s) (reconnectInterval s) (currentData s)
        (demoInterval s) (isDemoMode s) (config s)
        (sockets s) (timers s) v (emitted s).

Definition set_emitted (v : list Emitted) (s : Sys) : Sys :=
  mkSys (socket s) (isConnected s) (reconnectInterval s) (currentData s)
        (demoInterval s) (isDemoMode s) (config s)
        (sockets s) (timers s) (wire s) v.

(** *** Runtime primitives *)

(** [this.emit(e)]. *)
Definition emit (e : Emitted) (s : Sys) : Sys :=
  set_emitted (emitted s ++ [e]) s.

(** [new WebSocket(url)]: a fresh handle, in state [CONNECTING]. *)
Definition newWebSocket (s : Sys) : nat * Sys :=
  (length (sockets s), set_sockets (sockets s ++ [CONNECTING]) s).

Definition readyState (id : nat) (s : Sys) : option ReadyState :=
  sockets s !! id.

Definition readyState_eqb (a b : ReadyState) : bool :=
  match a, b with
  | CONNECTING, CONNECTING | OPEN, OPEN
  | CLOSING, CLOSING | CLOSED, CLOSED => true
  | _, _ => false
  end.

(** [ws.close()] of the socket library: a closed socket stays closed, any
    other enters [CLOSING]; the [close] event is delivered later. *)
Definition closing (r : ReadyState) : ReadyState :=
  match r with
  | CLOSED => CLOSED
  | _ => CLOSING
  end.

Definition socketClose (id : nat) (s : Sys) : Sys :=
  set_sockets (alter closing id (sockets s)) s.

(** [ws.send(frame)]. *)
Definition socketSend (id : nat) (f : Frame) (s : Sys) : Sys :=
  set_wire (wire s ++ [(id, f)]) s.

(** [setTimeout] and [setInterval]: a fresh armed timer. *)
Definition newTimer (k : TimerKind) (ms : Z) (s : Sys) : nat * Sys :=
  (length (timers s), set_timers (timers s ++ [mkTimer k ms true]) s).

Definition disarm (t : Timer) : Timer := mkTimer (kind t) (delay t) false.

(** [clearTimeout] and [clearInterval]. *)
Definition clearTimer (id : nat) (s : Sys) : Sys :=
  set_timers (alter disarm id (timers s)) s.

(** *** The service *)

(** The constructor, lines 20-30: [autoConnect] and [demoMode] default to
    [false] and are overridden by the caller's configuration. *)
Definition defaultConfig : NeuroSkyConfig := mkConfig false false.

Definition init (cfg : NeuroSkyConfig) : Sys :=
  mkSys None false None None None (demoMode cfg || false) cfg [] [] [] [].

(** Outcome of the promise of an [async] method. *)
Inductive Settled :=
| Fulfilled
| Rejected (err : string).

(** Whether [new WebSocket(url)] returns or throws synchronously. *)
Inductive CtorOutcome :=
| Constructed
| Throws (err : string).

(** [startDemoMode], lines 186-195. *)
Definition startDemoMode (s : Sys) : Sys :=
  let s := set_isConnected true s in
  let s := emit EvConnected s in
  let '(id, s) := newTimer DemoInterval 250 s in
  set_demoInterval (Some id) s.

(** [connect], lines 32-89.  The four listeners registered on the new
    socket are [onOpen], [onMessage], [onClose] and [onError] below. *)
Definition connect (ctor : CtorOutcome) (s : Sys) : Sys * Settled :=
  if isDemoMode s then (startDemoMode s, Fulfilled)
  else
    match ctor with
    | Throws err => (s, Rejected err)
    | Constructed =>
        let '(id, s) := newWebSocket s in
        (set_socket (Some id) s, Fulfilled)
    end.

(** [scheduleReconnect], lines 127-141. *)
Definition scheduleReconnect (s : Sys) : Sys :=
  let s :=
    match reconnectInterval s with
    | Some t => clearTimer t s
    | None => s
    end in
  if autoConnect (config s) then
    let '(id, s) := newTimer ReconnectTimeout 5000 s in
    set_reconnectInterval (Some id) s
  else s.

(** The [open] listener, lines 44-59. *)
Definition onOpen (s : Sys) : Sys :=
  let s := set_isConnected true s in
  let s :=
    match socket s with
    | Some id =>
        match readyState id s with
        | Some OPEN => socketSend id (ConfigFrame false "Json") s
        | _ => s
        end
    | None => s
    end in
  emit EvConnected s.

(** The [close] listener, lines 70-78. *)
Definition onClose (s : Sys) : Sys :=
  let s := set_isConnected false s in
  let s := emit EvDisconnected s in
  if autoConnect (config s) then scheduleReconnect s else s.

(** The [error] listener, lines 80-83. *)
Definition onError (err : string) (s : Sys) : Sys :=
  emit (EvError err) s.

(** [handleThinkGearMessage], lines 91-125.  [now] and [now'] are the
    values of the two [Date.now()] calls. *)
Definition parseMessage (message : ThinkGearMessage) : PartialData :=
  let '(a, m) :=
    match eSense message with
    | Some e => (Some (Js.orNum (es_attention e) 0),
                 Some (Js.orNum (es_meditation e) 0))
    | None => (None, None)
    end in
  let q :=
    match poorSignalLevel message with
    | Some level => Some (quality level)
    | None => None
    end in
  mkPartial a m q.

Definition present (data : PartialData) : bool :=
  Js.defined (p_attention data) || Js.defined (p_meditation data)
  || Js.defined (p_signalQuality data).

Definition mergeData (data : PartialData) (cur : option BrainwaveData)
    (now : Z) : BrainwaveData :=
  mkData (Js.orNum (Js.or (p_attention data) (attention <$> cur)) 0)
         (Js.orNum (Js.or (p_meditation data) (meditation <$> cur)) 0)
         (Js.orNum (Js.or (p_signalQuality data) (signalQuality <$> cur)) 0)
         now.

Definition handleThinkGearMessage (message : ThinkGearMessage)
    (now now' : Z) (s : Sys) : Sys :=
  let data := parseMessage message in
  let s :=
    if present data then
      let d := mergeData data (currentData s) now in
      emit (EvData d) (set_currentData (Some d) s)
    else s in
  let s :=
    if Js.truthy (blinkStrength message) then
      emit (EvBlink (default 0 (blinkStrength message))) s
    else s in
  if Js.truthy (rawEeg message) then
    emit (EvRawEeg (default 0 (rawEeg message)) now') s
  else s.

(** The [message] listener, lines 61-68: a payload that does not parse is
    logged and dropped. *)
Definition onMessage (payload : option ThinkGearMessage) (now now' : Z)
    (s : Sys) : Sys :=
  match payload with
  | Some message => handleThinkGearMessage message now now' s
  | None => s
  end.

(** [disconnect], lines 143-161. *)
Definition disconnect (s : Sys) : Sys :=
  let s :=
    match reconnectInterval s with
    | Some t => set_reconnectInterval None (clearTimer t s)
    | None => s
    end in
  let s :=
    match demoInterval s with
    | Some t => set_demoInterval None (clearTimer t s)
    | None => s
    end in
  let s :=
    match socket s with
    | Some id => set_socket None (socketClose id s)
    | None => s
    end in
  let s := set_isConnected false s in
  set_isDemoMode false s.

(** [getConnectionStatus] and [getCurrentData], lines 163-169. *)
Definition getConnectionStatus (s : Sys) : bool := isConnected s.
Definition getCurrentData (s : Sys) : option BrainwaveData := currentData s.

(** [enableDemoMode], lines 171-174. *)
Definition enableDemoMode (s : Sys) : Sys :=
  let s := set_isDemoMode true s in
  set_config (mkConfig (autoConnect (config s)) true) s.

(** [disableDemoMode], lines 176-184. *)
Definition disableDemoMode (s : Sys) : Sys :=
  let s := set_isDemoMode false s in
  let s := set_config (mkConfig (autoConnect (config s)) false) s in
  let s :=
    match demoInterval s with
    | Some t => set_demoInterval None (clearTimer t s)
    | None => s
    end in
  disconnect s.

(** *** The event loop

    One [Input] is one turn of the event loop: a call of the public
    interface, an event of an upstream socket, or the reconnect timer
    firing.  Socket events are delivered as the socket library does:
    [open] only to a connecting socket, [message] only to an open one,
    [close] once, after which the socket is [CLOSED]; a socket that errs
    is torn down by the library. *)

Inductive Input :=
| Connect (ctor : CtorOutcome)
| Disconnect
| EnableDemoMode
| DisableDemoMode
| SockOpen (id : nat)
| SockMessage (id : nat) (payload : option ThinkGearMessage) (now now' : Z)
| SockClose (id : nat)
| SockError (id : nat) (err : string)
| ReconnectFire (id : nat) (ctor : CtorOutcome).

Definition setReadyState (id : nat) (r : ReadyState) (s : Sys) : Sys :=
  set_sockets (<[id := r]> (sockets s)) s.

Definition step (s : Sys) (i : Input) : Sys :=
  match i with
  | Connect ctor => fst (connect ctor s)
  | Disconnect => disconnect s
  | EnableDemoMode => enableDemoMode s
  | DisableDemoMode => disableDemoMode s
  | SockOpen id =>
      match readyState id s with
      | Some CONNECTING => onOpen (setReadyState id OPEN s)
      | _ => s
      end
  | SockMessage id payload now now' =>
      match readyState id s with
      | Some OPEN => onMessage payload now now' s
      | _ => s
      end
  | SockClose id =>
      match readyState id s with
      | Some CLOSED | None => s
      | Some _ => onClose (setReadyState id CLOSED s)
      end
  | SockError id err =>
      match readyState id s with
      | Some CLOSED | None => s
      | Some _ => onError err (setReadyState id CLOSING s)
      end
  | ReconnectFire id ctor =>
      match timers s !! id with
      | Some (mkTimer ReconnectTimeout _ true) =>
          fst (connect ctor (clearTimer id s))
      | _ => s
      end
  end.

Definition run (s : Sys) (inputs : list Input) : Sys :=
  fold_left step inputs s.

(** *** Upstream connections

    An upstream connection is a socket that is connecting or open, or a
    synthetic generator whose interval is armed. *)

Definition liveSocket (r : ReadyState) : bool :=
  match r with
  | CONNECTING | OPEN => true
  | CLOSING | CLOSED => false
  end.

Definition runningGenerator (t : Timer) : bool :=
  match kind t with
  | DemoInterval => armed t
  | ReconnectTimeout => false
  end.

Definition pendingReconnect (t : Timer) : bool :=
  match kind t with
  | ReconnectTimeout => armed t
  | DemoInterval => false
  end.

Definition liveSockets (s : Sys) : nat :=
  length (List.filter liveSocket (sockets s)).

Definition runningGenerators (s : Sys) : nat :=
  length (List.filter runningGenerator (timers s)).

Definition pendingReconnects (s : Sys) : nat :=
  length (List.filter pendingReconnect (timers s)).

Definition activeUpstreams (s : Sys) : nat :=
  liveSockets s + runningGenerators s.

(** Every armed timer is one the service still holds a handle of. *)
Definition tracked (s : Sys) : Prop :=
  forall (id : nat) (t : Timer),
    timers s !! id = Some t -> armed t = true ->
    match kind t with
    | ReconnectTimeout => reconnectInterval s = Some id
    | DemoInterval => demoInterval s = Some id
    end.

(** The adapter in demo mode with its generator running. *)
Definition demoState : Sys :=
  run (init defaultConfig) [EnableDemoMode; Connect Constructed].

(** ** Synthetic generation *)

(** [Math.sin] and [Math.cos]. *)
Class MathTrig := {
  Math_sin : Q -> Q;
  Math_cos : Q -> Q
}.

(** What one run of [generateDemoData] reads from the runtime: the two
    values of [Date.now()] and the values of [Math.random()], in call
    order. *)
Record DemoTick := mkTick {
  tick_now : Z;
  rnd_attention : Q;
  rnd_meditation : Q;
  rnd_signal : Q;
  tick_stamp : Z;
  rnd_blink : Q;
  rnd_strength : Q
}.

Section Demo.
Context `{MathTrig}.

(** Lines 199-217.  The decimal constants stand for the floats nearest to
    them; the properties below hold whatever value reaches the clamp. *)
Definition demoReading (k : DemoTick) : BrainwaveData :=
  let time := inject_Z (tick_now k) / 1000 in
  let baseAttention :=
    30 + 30 * Math_sin (time * 0.01) + 15 * Math_sin (time * 0.03) in
  let baseMeditation :=
    25 + 35 * Math_cos (time * 0.008) + 20 * Math_cos (time * 0.02) in
  let attention :=
    Js.max 0 (Js.min 100 (Js.round
      (baseAttention + 10 * (rnd_attention k - 0.5)
       + 5 * Math_sin (time * 0.1)))) in
  let meditation :=
    Js.max 0 (Js.min 100 (Js.round
      (baseMeditation + 8 * (rnd_meditation k - 0.5)
       + 7 * Math_cos (time * 0.12)))) in
  let signalQuality :=
    Js.max 60 (Js.min 100 (Js.round
      (85 + 10 * Math_sin (time * 0.005)
       + 5 * (rnd_signal k - 0.5)))) in
  mkData attention meditation signalQuality (tick_stamp k).

(** [generateDemoData], lines 197-232. *)
Definition generateDemoData (k : DemoTick) (s : Sys) : Sys :=
  let d := demoReading k in
  let s := set_currentData (Some d) s in
  let s := emit (EvData d) s in
  if negb (Qle_bool 0.02 (rnd_blink k)) then
    emit (EvBlink (Js.round (20 + 30 * rnd_strength k))) s
  else s.

(** A turn of the event loop, the generator's interval included. *)
Inductive Event :=
| Op (i : Input)
| DemoFire (id : nat) (k : DemoTick).

Definition stepEvent (s : Sys) (e : Event) : Sys :=
  match e with
  | Op i => step s i
  | DemoFire id k =>
      match timers s !! id with
      | Some (mkTimer DemoInterval _ true) => generateDemoData k s
      | _ => s
      end
  end.

Definition runEvents (s : Sys) (es : list Event) : Sys :=
  fold_left stepEvent es s.

End Demo.

(** Stand-ins for [Math.sin] and [Math.cos] and a tick, to evaluate the
    generator on a concrete input. *)
Definition flatTrig : MathTrig :=
  {| Math_sin := fun _ => 0; Math_cos := fun _ => 0 |}.

Definition sampleTick : DemoTick :=
  mkTick 1000 (1 # 2) (1 # 2) (1 # 2) 1000 (1 # 100) (1 # 2).

(** The readings among a list of emitted events. *)
Definition readings (es : list Emitted) : list BrainwaveData :=
  omap (fun e => match e with EvData d => Some d | _ => None end) es.

Definition inRange (lo hi x : Q) : Prop := lo <= x /\ x <= hi.

Definition demoBounds (d : BrainwaveData) : Prop :=
  inRange 0 100 (attention d) /\ inRange 0 100 (meditation d)
  /\ inRange 60 100 (signalQuality d).

(** ** What the specification says a reading carries

    The value of a field a message carries, and the most recently observed
    value of a field over the messages received so far, [0] when no
    message carried it. *)

Definition observedAttention (m : ThinkGearMessage) : option Q :=
  e ← eSense m; es_attention e.

Definition observedMeditation (m : ThinkGearMessage) : option Q :=
  e ← eSense m; es_meditation e.

Definition observedQuality (m : ThinkGearMessage) : option Q :=
  quality <$> poorSignalLevel m.

Definition lastObserved (field : ThinkGearMessage -> option Q)
    (msgs : list ThinkGearMessage) : Q :=
  default 0 (last (omap field msgs)).

(** The most recent observation that is not zero, [0] when there is none:
    what the [||] chain of the handler keeps. *)
Definition nonzero (q : Q) : bool := negb (Qeq_bool q 0).

Definition lastNonzero (field : ThinkGearMessage -> option Q)
    (msgs : list ThinkGearMessage) : Q :=
  default 0 (last (List.filter nonzero (omap field msgs))).

(** Messages arriving on the open socket [id], all stamped [now]. *)
Definition deliver (id : nat) (now : Z) (msgs : list ThinkGearMessage)
    : list Input :=
  (fun m => SockMessage id (Some m) now now) <$> msgs.

(** The handler run over a list of messages. *)
Definition feed (now : Z) (s : Sys) (msgs : list ThinkGearMessage) : Sys :=
  fold_left (fun s m => handleThinkGearMessage m now now s) msgs s.

(** The headset reports a clean signal, then loses contact. *)
Definition contactLost : list ThinkGearMessage :=
  [mkMessage None (Some 0) None None;
   mkMessage None (Some 200) None None].

(** Attention and meditation are reported, then drop to zero. *)
Definition attentionLost : list ThinkGearMessage :=
  [mkMessage (Some (mkESense (Some 80) (Some 60))) None None None;
   mkMessage (Some (mkESense (Some 0) (Some 0))) None None None].

(** ** The availability probe, lines 235-259 *)

Module Probe.

Inductive Outcome := POpen | PError | PTimeout.

Inductive Promise :=
| Pending
| Resolved (b : bool)
| RejectedWith (err : string).

(** What a listener of the probe does, in order. *)
Inductive Action :=
| ClearTimeout
| CloseSocket
| Resolve (b : bool).

Record State := mkState {
  testSocket : option ReadyState;
  timeoutArmed : bool;
  timeoutDelay : Z;
  promise : Promise;
  closeCalls : nat
}.

(** The timer callback and the [open] and [error] listeners. *)
Definition listener (o : Outcome) : list Action :=
  match o with
  | PTimeout => [CloseSocket; Resolve false]
  | POpen => [ClearTimeout; CloseSocket; Resolve true]
  | PError => [ClearTimeout; Resolve false]
  end.

(** A promise settles once; later calls of [resolve] are ignored. *)
Definition settle (b : bool) (p : Promise) : Promise :=
  match p with
  | Pending => Resolved b
  | _ => p
  end.

Definition perform (st : State) (a : Action) : State :=
  match a with
  | ClearTimeout =>
      mkState (testSocket st) false (timeoutDelay st) (promise st)
              (closeCalls st)
  | CloseSocket =>
      mkState (closing <$> testSocket st) (timeoutArmed st)
              (timeoutDelay st) (promise st) (S (closeCalls st))
  | Resolve b =>
      mkState (testSocket st) (timeoutArmed st) (timeoutDelay st)
              (settle b (promise st)) (closeCalls st)
  end.

(** [checkThinkGearConnector] up to the point where it returns its
    promise: the socket is constructed and the timeout armed, or the
    constructor throws and the [catch] returns [false]. *)
Definition checkThinkGearConnector (ctor : CtorOutcome) : State :=
  match ctor with
  | Constructed => mkState (Some CONNECTING) true 3000 Pending 0
  | Throws _ => mkState None false 3000 (Resolved false) 0
  end.

(** Whether the runtime can deliver [o] now: the timer fires only while
    armed, and then it is spent; a socket opens only while connecting;
    an error reaches the listener only while a socket exists.  A socket
    that errs is torn down by the socket library before its listener
    runs, as for the adapter's sockets. *)
Definition enabled (st : State) (o : Outcome) : bool :=
  match o with
  | PTimeout => timeoutArmed st
  | POpen =>
      match testSocket st with
      | Some CONNECTING => true
      | _ => false
      end
  | PError =>
      match testSocket st with
      | Some _ => true
      | None => false
      end
  end.

Definition arrive (st : State) (o : Outcome) : State :=
  match o with
  | PTimeout =>
      mkState (testSocket st) false (timeoutDelay st) (promise st)
              (closeCalls st)
  | POpen =>
      mkState (Some OPEN) (timeoutArmed st) (timeoutDelay st)
              (promise st) (closeCalls st)
  | PError =>
      mkState (closing <$> testSocket st) (timeoutArmed st)
              (timeoutDelay st) (promise st) (closeCalls st)
  end.

Definition step (st : State) (o : Outcome) : State :=
  if enabled st o then fold_left perform (listener o) (arrive st o)
  else st.

Definition run (st : State) (os : list Outcome) : State :=
  fold_left step os st.

Definition closes (o : Outcome) : bool :=
  existsb (fun a => match a with CloseSocket => true | _ => false end)
          (listener o).

Definition settled (st : State) : bool :=
  match promise st with
  | Pending => false
  | _ => true
  end.

(** The probe connection is closed: its socket is neither connecting nor
    open. *)
Definition closed (st : State) : bool :=
  match testSocket st with
  | Some r => negb (liveSocket r)
  | None => false
  end.

Definition answer (o : Outcome) : bool :=
  match o with
  | POpen => true
  | PError | PTimeout => false
  end.

End Probe.

(** ** The fan-out hub: [broadcast] of the route module *)

Module Hub.

Record Client := mkClient {
  handle : nat;
  state : ReadyState
}.

(** What a broadcast does to the outside, in order. *)
Inductive Effect :=
| Stringify
| Send (to : nat) (message : string).

Definition isOpen (c : Client) : bool := readyState_eqb (state c) OPEN.

Section Broadcast.
Context {Payload : Type}.
Variable stringify : Payload -> string.

(** The body of the [forEach] callback. *)
Definition sendIfOpen (message : string) (trace : list Effect)
    (client : Client) : list Effect :=
  if isOpen client then trace ++ [Send (handle client) message]
  else trace.

(** [broadcast(data)]: the set of clients afterwards and the effects. *)
Definition broadcast (clients : list Client) (data : Payload)
    : list Client * list Effect :=
  let message := stringify data in
  (clients, fold_left (sendIfOpen message) clients [Stringify]).

End Broadcast.

Definition sends (trace : list Effect) : list (nat * string) :=
  omap (fun e => match e with
                 | Send to message => Some (to, message)
                 | Stringify => None
                 end) trace.

Definition serializations (trace : list Effect) : nat :=
  length (List.filter (fun e => match e with
                                | Stringify => true
                                | Send _ _ => false
                                end) trace).

End Hub.

(** ** Ranges of live readings *)

(** A message as the headset protocol sends it: eSense values on the 0..100
    scale and a poor-signal level that is not negative. *)
Definition validMessage (m : ThinkGearMessage) : Prop :=
  from_option
    (fun e => from_option (inRange 0 100) True (es_attention e)
              /\ from_option (inRange 0 100) True (es_meditation e))
    True (eSense m)
  /\ from_option (Qle 0) True (poorSignalLevel m).

Definition percentages (d : BrainwaveData) : Prop :=
  inRange 0 100 (attention d) /\ inRange 0 100 (meditation d)
  /\ inRange 0 100 (signalQuality d).

Definition wholeNumber (q : Q) : Prop := exists z : Z, q == inject_Z z.

(** ** Reconnect timers *)

(** Every pending reconnect timer of the table is the one held. *)
Definition heldIn (ts : list Timer) (r : option nat) : Prop :=
  forall (j : nat) (t : Timer),
    ts !! j = Some t -> pendingReconnect t = true -> r = Some j.

Definition reconnectHeld (s : Sys) : Prop :=
  heldIn (timers s) (reconnectInterval s).

(** Auto-reconnect is off and no reconnect timer was ever created. *)
Definition reconnectOff (s : Sys) : Prop :=
  autoConnect (config s) = false
  /\ Forall (fun t => kind t = DemoInterval) (timers s).

(** [getCurrentData] is the last reading emitted. *)
Definition dataInSync (s : Sys) : Prop :=
  currentData s = last (readings (emitted s)).

(** ** The route module around the adapter *)

Module Route.

(** The JSON messages the hub sends to a subscriber. *)
Inductive Outbound :=
| ConnectionStatus (connected : bool) (currentData : option BrainwaveData)
| EegData (data : BrainwaveData)
| NeuroskyConnected
| NeuroskyDisconnected
| NeuroskyError (error : string).

(** [clients.add(ws)] and [clients.delete(ws)] on the set of subscriber
    sockets; a socket is identified by its handle. *)
Definition hasClient (h : nat) (clients : list Hub.Client) : bool :=
  existsb (fun c => Nat.eqb (Hub.handle c) h) clients.

Definition addClient (ws : Hub.Client) (clients : list Hub.Client)
    : list Hub.Client :=
  if hasClient (Hub.handle ws) clients then clients else clients ++ [ws].

Definition deleteClient (h : nat) (clients : list Hub.Client)
    : list Hub.Client :=
  List.filter (fun c => negb (Nat.eqb (Hub.handle c) h)) clients.

Section Subscribers.
Variable stringify : Outbound -> string.

(** The [connection] listener of the socket server up to the registration
    of the per-socket listeners: the socket joins the set and, if open, is
    sent the adapter's status. *)
Definition onConnection (s : Sys) (ws : Hub.Client)
    (clients : list Hub.Client) : list Hub.Client * list Hub.Effect :=
  (addClient ws clients,
   if Hub.isOpen ws then
     [Hub.Stringify;
      Hub.Send (Hub.handle ws)
        (stringify (ConnectionStatus (getConnectionStatus s)
                                     (getCurrentData s)))]
   else []).

(** The [close] and [error] listeners of a subscriber socket. *)
Definition onClientClose (h : nat) (clients : list Hub.Client)
    : list Hub.Client :=
  deleteClient h clients.

End Subscribers.

(** *** The session sink: the [data] listener *)

Section Sink.
Context {SessionId : Type}.

Record EegRecord := mkRecord {
  sessionId : SessionId;
  r_attention : Q;
  r_meditation : Q;
  r_signalQuality : Q;
  rawData : BrainwaveData
}.

Definition recordFor (data : BrainwaveData) (sid : SessionId) : EegRecord :=
  mkRecord sid (attention data) (meditation data) (signalQuality data) data.

(** Whether [storage.addEegData] rejects for a session. *)
Variable addFails : SessionId -> bool.

(** The [for] loop inside the [try]: the first rejection leaves the loop
    and is logged.  The result is the records stored and whether an error
    was logged. *)
Fixpoint storeEach (activeSessions : list SessionId) (data : BrainwaveData)
    : list EegRecord * bool :=
  match activeSessions with
  | [] => ([], false)
  | session :: rest =>
      if addFails session then ([], true)
      else
        let '(stored, logged) := storeEach rest data in
        (recordFor data session :: stored, logged)
  end.

(** The body of the [try]; [None] is [storage.getActiveSessions]
    rejecting. *)
Definition storeReading (activeSessions : option (list SessionId))
    (data : BrainwaveData) : list EegRecord * bool :=
  match activeSessions with
  | Some sessions => storeEach sessions data
  | None => ([], true)
  end.

End Sink.

(** *** [POST /api/neurosky/connect] *)

Record Reply := mkReply {
  status : Z;
  success : bool;
  text : string
}.

Definition postConnect (ctor : CtorOutcome) (s : Sys) : Sys * Reply :=
  let '(s', outcome) := connect ctor s in
  match outcome with
  | Fulfilled => (s', mkReply 200 true "Connected to NeuroSky device")
  | Rejected err => (s', mkReply 500 false err)
  end.

End Route.

(** ** The device-status component: [getSignalQuality] *)

Module Client.

Record Badge := mkBadge {
  quality : string;
  color : string;
  level : nat
}.

(** [x >= y] on numbers. *)
Definition geq (x y : Q) : bool := Qle_bool y x.

Definition getSignalQuality (eegData : option BrainwaveData) : Badge :=
  match eegData with
  | None => mkBadge "No Signal" "bg-gray-500" 0
  | Some d =>
      let signalQuality := signalQuality d in
      if geq signalQuality 80 then mkBadge "Excellent" "bg-green-500" 5
      else if geq signalQuality 60 then mkBadge "Good" "bg-green-400" 4
      else if geq signalQuality 40 then mkBadge "Fair" "bg-yellow-500" 3
      else if geq signalQuality 20 then mkBadge "Poor" "bg-orange-500" 2
      else mkBadge "Very Poor" "bg-red-500" 1
  end.

End Client.

(** * Properties *)

(** ** Numbers *)

Section Numbers.

Lemma scale_half (x : Q) : x * 100 / 200 == x * (1 # 2).
Proof. field. Qed.

(** Below the top of the scale the clamp at zero is idle. *)
Lemma quality_linear (x : Q) : x <= 200 -> quality x == 100 - x * (1 # 2).
Proof.
  intros Hx. unfold quality, Js.max.
  pose proof (scale_half x) as E.
  destruct (Q.max_spec 0 (100 - x * 100 / 200)) as [[_ ->]|[? ->]]; lra.
Qed.

Lemma quality_nonneg (x : Q) : 0 <= quality x.
Proof. apply Q.le_max_l. Qed.

Lemma quality_saturated (x : Q) : 200 <= x -> quality x == 0.
Proof.
  intros Hx. unfold quality, Js.max.
  pose proof (scale_half x) as E.
  destruct (Q.max_spec 0 (100 - x * 100 / 200)) as [[? ->]|[_ ->]]; lra.
Qed.

(** The mapping never increases, on the scale and beyond it. *)
Lemma quality_antitone (a b : Q) : a <= b -> quality b <= quality a.
Proof.
  intros Hab. destruct (Qlt_le_dec 200 b) as [Hb|Hb].
  - rewrite (quality_saturated b) by lra. apply quality_nonneg.
  - rewrite (quality_linear a), (quality_linear b) by lra. lra.
Qed.

(** [Math.max(lo, Math.min(hi, Math.round(x)))] lands in [[lo, hi]]. *)
Lemma clamp_round_bounds (lo hi x : Q) :
  lo <= hi -> inRange lo hi (Js.max lo (Js.min hi (Js.round x))).
Proof.
  intros Hle. unfold inRange, Js.max, Js.min. split.
  - apply Q.le_max_l.
  - apply Q.max_lub; [exact Hle | apply Q.le_min_l].
Qed.

Lemma demoReading_bounds `{MathTrig} (k : DemoTick) :
  demoBounds (demoReading k).
Proof.
  unfold demoBounds, demoReading.
  cbn [attention meditation signalQuality].
  repeat split; apply clamp_round_bounds; lra.
Qed.

End Numbers.

(** C5.  On the scale 0..200 the signal-quality mapping
    [quality level = max(0, 100 - level*100/200)] is monotonically
    decreasing: a higher poor-signal level never gives a higher quality,
    and on the whole levels of the scale a strictly higher level gives a
    strictly lower quality.  It maps 0 to 100 and 200 to 0. *)
Theorem quality_decreasing (a b : Q) (m n : Z) :
  0 <= a -> a <= b -> b <= 200 ->
  (0 <= m)%Z -> (m < n)%Z -> (n <= 200)%Z ->
  quality 0 == 100 /\ quality 200 == 0
  /\ quality b <= quality a
  /\ quality (inject_Z n) < quality (inject_Z m).
Proof.
  intros Ha Hab Hb Hm Hmn Hn. split; [|split; [|split]].
  - rewrite quality_linear; lra.
  - rewrite quality_linear; lra.
  - now apply quality_antitone.
  - assert (Hn' : inject_Z n <= inject_Z 200) by now rewrite <- Zle_Qle.
    assert (Hmn' : inject_Z m < inject_Z n) by now rewrite <- Zlt_Qlt.
    change (inject_Z 200) with 200 in Hn'.
    rewrite (quality_linear (inject_Z m)), (quality_linear (inject_Z n))
      by lra.
    lra.
Qed.

Lemma quality_decreasing_witness :
  quality 0 == 100 /\ quality 200 == 0
  /\ quality 150 <= quality 50
  /\ quality (inject_Z 51) < quality (inject_Z 50).
Proof.
  apply (quality_decreasing 50 150 50 51); vm_compute;
    first [reflexivity | discriminate].
Defined.

(** ** Synthetic generation *)

Section DemoFacts.
Context `{MathTrig}.

Lemma readings_app (xs ys : list Emitted) :
  readings (xs ++ ys) = readings xs ++ readings ys.
Proof. apply omap_app. Qed.

Lemma generateDemoData_timers (k : DemoTick) (s : Sys) :
  timers (generateDemoData k s) = timers s.
Proof. unfold generateDemoData. now destruct (negb _). Qed.

Lemma generateDemoData_readings (k : DemoTick) (s : Sys) :
  readings (emitted (generateDemoData k s))
  = readings (emitted s) ++ [demoReading k].
Proof.
  unfold generateDemoData. destruct (negb _); cbn [emit set_emitted emitted
    set_currentData]; rewrite !readings_app; cbn; now rewrite ?app_nil_r.
Qed.

Lemma generateDemoData_currentData (k : DemoTick) (s : Sys) :
  currentData (generateDemoData k s) = Some (demoReading k).
Proof. unfold generateDemoData. now destruct (negb _). Qed.

(** While the interval [id] stays armed, every firing runs the generator
    once. *)
Lemma runEvents_ticks (id : nat) (ms : Z) (ks : list DemoTick) :
  forall s : Sys,
    timers s !! id = Some (mkTimer DemoInterval ms true) ->
    readings (emitted (runEvents s (DemoFire id <$> ks)))
    = readings (emitted s) ++ (demoReading <$> ks).
Proof.
  induction ks as [|k ks IH]; intros s Hid; cbn.
  - now rewrite app_nil_r.
  - rewrite Hid. unfold runEvents in IH. rewrite IH.
    + rewrite generateDemoData_readings, <- app_assoc. reflexivity.
    + now rewrite generateDemoData_timers.
Qed.

End DemoFacts.

(** C9.  Start the adapter in demo mode ([enableDemoMode] then [connect])
    and let the generator's interval fire any number of times, 1000 or
    more included, with any clock values and any values of
    [Math.random]: every firing emits one reading, and in every reading
    attention and meditation lie in [[0,100]] and signal quality in
    [[60,100]]. *)
Theorem demo_readings_bounded `{MathTrig} (cfg : NeuroSkyConfig)
    (ks : list DemoTick) :
  let s0 := run (init cfg) [EnableDemoMode; Connect Constructed] in
  let s := runEvents s0 (DemoFire 0 <$> ks) in
  readings (emitted s) = demoReading <$> ks
  /\ length (readings (emitted s)) = length ks
  /\ Forall demoBounds (readings (emitted s)).
Proof.
  intros s0 s.
  assert (E : readings (emitted s) = demoReading <$> ks).
  { subst s. rewrite (runEvents_ticks 0 250 ks s0); reflexivity. }
  rewrite E. split; [reflexivity|]. split.
  - now rewrite length_fmap.
  - apply Forall_fmap, Forall_forall. intros k _. apply demoReading_bounds.
Qed.

(** ** The fan-out hub *)

Section HubFacts.
Import Hub.
Context {Payload : Type} (stringify : Payload -> string).

Lemma forEach_sendIfOpen (message : string) (clients : list Client) :
  forall trace : list Effect,
    fold_left (sendIfOpen message) clients trace
    = trace ++ ((fun c => Send (handle c) message)
                  <$> List.filter isOpen clients).
Proof.
  induction clients as [|c cs IH]; intros trace; cbn.
  - now rewrite app_nil_r.
  - rewrite IH. unfold sendIfOpen.
    destruct (isOpen c); cbn; [now rewrite <- app_assoc | reflexivity].
Qed.

Lemma sends_fmap_Send (message : string) (cs : list Client) :
  sends ((fun c => Send (handle c) message) <$> cs)
  = (fun c => (handle c, message)) <$> cs.
Proof. induction cs as [|c cs IH]; cbn; [reflexivity | now f_equal]. Qed.

Lemma serializations_fmap_Send (message : string) (cs : list Client) :
  serializations ((fun c => Send (handle c) message) <$> cs) = 0%nat.
Proof. induction cs as [|c cs IH]; cbn; [reflexivity | exact IH]. Qed.

End HubFacts.

(** C8.  [broadcast data] serialises [data] once, sends that one string to
    every client of the set whose socket is open, in the order of the set,
    sends nothing to a client whose socket is not open, and leaves the set
    as it was. *)
Theorem broadcast_delivers {Payload : Type} (stringify : Payload -> string)
    (clients : list Hub.Client) (data : Payload) :
  let result := Hub.broadcast stringify clients data in
  fst result = clients
  /\ Hub.serializations (snd result) = 1%nat
  /\ Hub.sends (snd result)
     = (fun c => (Hub.handle c, stringify data))
         <$> List.filter Hub.isOpen clients.
Proof.
  unfold Hub.broadcast; cbn [fst snd].
  rewrite forEach_sendIfOpen.
  change ([Hub.Stringify] ++ ?l) with (Hub.Stringify :: l).
  split; [reflexivity|]. split.
  - change (Hub.serializations (Hub.Stringify :: ?l))
      with (S (Hub.serializations l)).
    now rewrite serializations_fmap_Send.
  - change (Hub.sends (Hub.Stringify :: ?l)) with (Hub.sends l).
    apply sends_fmap_Send.
Qed.

(** ** The availability probe *)

Section ProbeFacts.
Import Probe.

Lemma perform_resolved (b : bool) (a : Action) (st : State) :
  promise st = Resolved b -> promise (perform st a) = Resolved b.
Proof. intros Hp. destruct a; cbn; rewrite ?Hp; reflexivity. Qed.

Lemma step_resolved (b : bool) (o : Outcome) (st : State) :
  promise st = Resolved b -> promise (step st o) = Resolved b.
Proof.
  intros Hp. unfold step. destruct (enabled st o); [|exact Hp].
  destruct o; cbn; rewrite ?Hp; reflexivity.
Qed.

Lemma run_resolved (b : bool) (os : list Outcome) :
  forall st : State,
    promise st = Resolved b -> promise (run st os) = Resolved b.
Proof.
  induction os as [|o os IH]; intros st Hp; cbn; [exact Hp|].
  apply IH, step_resolved, Hp.
Qed.

(** Until the promise settles the 3000 ms timeout stays armed, so the
    promise settles when that timer fires at the latest. *)
Lemma step_settled_or_armed (o : Outcome) (st : State) :
  settled st || timeoutArmed st = true ->
  settled (step st o) || timeoutArmed (step st o) = true.
Proof.
  unfold step, settled. destruct st as [sock arm ms p n].
  destruct o, sock as [[]|], arm, p; cbn; intros Hs;
    reflexivity || exact Hs.
Qed.

Lemma run_settled_or_armed (os : list Outcome) :
  forall st : State,
    settled st || timeoutArmed st = true ->
    settled (run st os) || timeoutArmed (run st os) = true.
Proof.
  induction os as [|o os IH]; intros st Hs; cbn; [exact Hs|].
  apply IH, step_settled_or_armed, Hs.
Qed.

(** A closed probe connection stays closed. *)
Lemma step_closed (o : Outcome) (st : State) :
  closed st = true -> closed (step st o) = true.
Proof.
  unfold step, closed. destruct st as [sock arm ms p n].
  destruct o, sock as [[]|], arm; cbn; intros Hc;
    reflexivity || discriminate Hc.
Qed.

Lemma run_closed (os : list Outcome) :
  forall st : State, closed st = true -> closed (run st os) = true.
Proof.
  induction os as [|o os IH]; intros st Hc; cbn; [exact Hc|].
  apply IH, step_closed, Hc.
Qed.

End ProbeFacts.

(** C7.  The probe's promise is never rejected.  If the socket
    constructor throws it resolves [false] at once, and there is no
    connection to close.  Otherwise the first of [open], [error] and the
    3000 ms timeout settles it, to [true] for [open] and to [false] for
    the other two, and nothing that arrives later changes the answer;
    until it is settled the timeout stays armed.  After each of the three
    outcomes the probe connection is closed, and it stays closed: on
    [open] and on timeout the probe calls [close], on [error] the socket
    has been torn down when the listener runs. *)
Theorem probe_always_resolves (o : Probe.Outcome) (rest : list Probe.Outcome)
    (err : string) :
  let started := Probe.checkThinkGearConnector Constructed in
  Probe.promise (Probe.run (Probe.checkThinkGearConnector (Throws err))
                           (o :: rest))
    = Probe.Resolved false
  /\ Probe.testSocket (Probe.checkThinkGearConnector (Throws err)) = None
  /\ Probe.promise (Probe.run started (o :: rest))
     = Probe.Resolved (Probe.answer o)
  /\ Probe.settled (Probe.run started rest)
     || Probe.timeoutArmed (Probe.run started rest) = true
  /\ Probe.timeoutDelay started = 3000%Z
  /\ Probe.closed (Probe.step started o) = true
  /\ Probe.closed (Probe.run started (o :: rest)) = true
  /\ Probe.closeCalls (Probe.step started o)
     = match o with
       | Probe.PError => 0%nat
       | Probe.POpen | Probe.PTimeout => 1%nat
       end.
Proof.
  intros started.
  split; [|split; [|split; [|split; [|split; [|split; [|split]]]]]].
  - apply run_resolved. reflexivity.
  - reflexivity.
  - cbn [Probe.run fold_left]. apply run_resolved. now destruct o.
  - apply run_settled_or_armed. reflexivity.
  - reflexivity.
  - now destruct o.
  - cbn [Probe.run fold_left]. apply run_closed. now destruct o.
  - now destruct o.
Qed.

(** ** The source adapter *)

Section AdapterFacts.

(** [enableDemoMode] changes the two mode flags and nothing else. *)
Lemma enableDemoMode_frame (s : Sys) :
  socket (enableDemoMode s) = socket s
  /\ sockets (enableDemoMode s) = sockets s
  /\ timers (enableDemoMode s) = timers s
  /\ demoInterval (enableDemoMode s) = demoInterval s
  /\ isConnected (enableDemoMode s) = isConnected s
  /\ isDemoMode (enableDemoMode s) = true.
Proof. repeat split. Qed.

(** [connect] rejects exactly when it is in live mode and the socket
    constructor throws; an asynchronous failure of the connection
    cannot reject it. *)
Lemma connect_rejects_iff (ctor : CtorOutcome) (s : Sys) (err : string) :
  snd (connect ctor s) = Rejected err
  <-> isDemoMode s = false /\ ctor = Throws err.
Proof.
  unfold connect. destruct (isDemoMode s), ctor; cbn; split;
    try (intros [? ?]); try discriminate; try congruence.
  intros [= ->]. now split.
Qed.

(** The path of [connect] that rejects emits nothing. *)
Lemma connect_rejected_silent (ctor : CtorOutcome) (s : Sys) (err : string) :
  snd (connect ctor s) = Rejected err ->
  emitted (fst (connect ctor s)) = emitted s.
Proof.
  unfold connect. destruct (isDemoMode s), ctor; cbn; try discriminate.
  reflexivity.
Qed.

(** Clearing a timer disarms it and leaves the others alone. *)
Lemma disarm_lookup (id j : nat) (ts : list Timer) (t : Timer) :
  alter disarm id ts !! j = Some t -> armed t = true ->
  j <> id /\ ts !! j = Some t.
Proof.
  intros Hj Ha. destruct (decide (j = id)) as [->|Hne].
  - rewrite list_lookup_alter_eq in Hj.
    destruct (ts !! id) as [t0|]; simplify_eq/=.
  - rewrite list_lookup_alter_ne in Hj by congruence. now split.
Qed.

Lemma disconnect_fields (s : Sys) :
  isConnected (disconnect s) = false
  /\ isDemoMode (disconnect s) = false
  /\ socket (disconnect s) = None
  /\ reconnectInterval (disconnect s) = None
  /\ demoInterval (disconnect s) = None
  /\ emitted (disconnect s) = emitted s
  /\ currentData (disconnect s) = currentData s.
Proof.
  destruct s as [[sk|] c [r|] d [g|] dm cfg sks ts w em]; repeat split.
Qed.

Lemma disconnect_twice (s : Sys) : disconnect (disconnect s) = disconnect s.
Proof.
  destruct s as [[sk|] c [r|] d [g|] dm cfg sks ts w em]; reflexivity.
Qed.

Lemma disconnect_timers (s : Sys) :
  timers (disconnect s)
  = from_option (alter disarm) id (demoInterval s)
      (from_option (alter disarm) id (reconnectInterval s) (timers s)).
Proof.
  destruct s as [[sk|] c [r|] d [g|] dm cfg sks ts w em]; reflexivity.
Qed.

Lemma disconnect_sockets (s : Sys) :
  sockets (disconnect s)
  = from_option (alter closing) id (socket s) (sockets s).
Proof.
  destruct s as [[sk|] c [r|] d [g|] dm cfg sks ts w em]; reflexivity.
Qed.

(** When every armed timer is one the service holds, [disconnect]
    leaves no timer armed. *)
Lemma disconnect_disarms_tracked (s : Sys) :
  tracked s ->
  forall (j : nat) (t : Timer),
    timers (disconnect s) !! j = Some t -> armed t = false.
Proof.
  intros Htr j t Hj. destruct (armed t) eqn:Ha; [exfalso|reflexivity].
  rewrite disconnect_timers in Hj.
  assert (Hin : timers s !! j = Some t
                /\ demoInterval s <> Some j
                /\ reconnectInterval s <> Some j).
  { destruct (demoInterval s) as [g|], (reconnectInterval s) as [r|];
      cbn in Hj.
    - apply disarm_lookup in Hj as [Hg Hj]; [|exact Ha].
      apply disarm_lookup in Hj as [Hr Hj]; [|exact Ha].
      repeat split; congruence.
    - apply disarm_lookup in Hj as [Hg Hj]; [|exact Ha].
      repeat split; congruence.
    - apply disarm_lookup in Hj as [Hr Hj]; [|exact Ha].
      repeat split; congruence.
    - repeat split; congruence. }
  destruct Hin as (Hlook & Hg & Hr).
  specialize (Htr j t Hlook Ha). destruct (kind t); contradiction.
Qed.

Lemma filter_all_false {A : Type} (f : A -> bool) (l : list A) :
  (forall (j : nat) (x : A), l !! j = Some x -> f x = false) ->
  List.filter f l = [].
Proof.
  induction l as [|x l IH]; intros Hall; cbn; [reflexivity|].
  rewrite (Hall 0%nat x eq_refl). apply IH.
  intros j y Hj. exact (Hall (S j) y Hj).
Qed.

(** The socket the service held is no longer live after [disconnect]. *)
Lemma disconnect_closes_socket (s : Sys) (sk : nat) (r : ReadyState) :
  socket s = Some sk -> readyState sk (disconnect s) = Some r ->
  liveSocket r = false.
Proof.
  unfold readyState. rewrite disconnect_sockets. intros -> Hr. cbn in Hr.
  rewrite list_lookup_alter_eq in Hr.
  destruct (sockets s !! sk) as [[]|]; simplify_eq/=; reflexivity.
Qed.

End AdapterFacts.

(** C1.  Two upstream connections can be active at once.  In demo mode a
    second [connect] arms a second generator beside the first; in live
    mode a second [connect] constructs a second socket beside the first,
    and both open; [connect] after [enableDemoMode] on an open live socket
    starts a generator beside that socket.  The handle of the first
    connection is overwritten, so a later [disconnect] reaches only the
    second and one connection stays active. *)
Theorem connect_twice_two_upstreams :
  let s0 := init defaultConfig in
  activeUpstreams
    (run s0 [EnableDemoMode; Connect Constructed; Connect Constructed])
    = 2%nat
  /\ activeUpstreams
       (run s0 [Connect Constructed; SockOpen 0;
                Connect Constructed; SockOpen 1]) = 2%nat
  /\ activeUpstreams
       (run s0 [Connect Constructed; SockOpen 0;
                EnableDemoMode; Connect Constructed]) = 2%nat
  /\ activeUpstreams
       (run s0 [EnableDemoMode; Connect Constructed; Connect Constructed;
                Disconnect]) = 1%nat.
Proof. repeat split. Qed.

(** C3.  [enableDemoMode] on an adapter whose live socket is open leaves
    that socket open and held by the adapter, starts no generator, and
    the adapter stays connected through the socket; a following
    [connect] then runs the generator beside the open socket. *)
Theorem enableDemoMode_keeps_live_socket :
  let s := run (init defaultConfig) [Connect Constructed; SockOpen 0] in
  readyState 0 s = Some OPEN
  /\ readyState 0 (enableDemoMode s) = Some OPEN
  /\ socket (enableDemoMode s) = Some 0%nat
  /\ isConnected (enableDemoMode s) = true
  /\ runningGenerators (enableDemoMode s) = 0%nat
  /\ liveSockets (run s [EnableDemoMode; Connect Constructed]) = 1%nat
  /\ runningGenerators (run s [EnableDemoMode; Connect Constructed])
     = 1%nat.
Proof. repeat split. Qed.

(** C4.  A connection attempt that fails after [connect] has returned
    (the handshake is refused: the socket raises [error], then [close])
    emits an [error] event, but the promise of [connect] is already
    fulfilled; with auto-reconnect off no retry is scheduled.  The one
    path on which [connect] rejects, a constructor that throws, emits no
    [error] event. *)
Theorem connect_failure_not_rejected :
  let s0 := init defaultConfig in
  let failed :=
    run s0 [Connect Constructed; SockError 0 "ECONNREFUSED"; SockClose 0] in
  snd (connect Constructed s0) = Fulfilled
  /\ emitted failed = [EvError "ECONNREFUSED"; EvDisconnected]
  /\ isConnected failed = false
  /\ pendingReconnects failed = 0%nat
  /\ snd (connect (Throws "ERR_INVALID_URL") s0) = Rejected "ERR_INVALID_URL"
  /\ emitted (fst (connect (Throws "ERR_INVALID_URL") s0)) = [].
Proof. repeat split. Qed.

(** What [disconnect] does reach.  From every state it leaves the adapter
    disconnected, holding no socket, no reconnect timer and no generator,
    emits nothing and raises nothing; the socket it held is no longer
    live; a second [disconnect] changes nothing.  When every armed timer
    was one the adapter held, no reconnect timer is pending and no
    generator is running afterwards. *)
Theorem disconnect_idempotent (s : Sys) :
  isConnected (disconnect s) = false
  /\ socket (disconnect s) = None
  /\ reconnectInterval (disconnect s) = None
  /\ demoInterval (disconnect s) = None
  /\ emitted (disconnect s) = emitted s
  /\ from_option (fun sk => liveSocket <$> readyState sk (disconnect s))
       None (socket s) <> Some true
  /\ disconnect (disconnect s) = disconnect s
  /\ (tracked s ->
      pendingReconnects (disconnect s) = 0%nat
      /\ runningGenerators (disconnect s) = 0%nat).
Proof.
  pose proof (disconnect_fields s) as (Hc & _ & Hs & Hr & Hg & He & _).
  repeat (split; [assumption|]).
  split; [|split; [apply disconnect_twice|]].
  - destruct (socket s) as [sk|] eqn:Hsk; cbn; [|discriminate].
    destruct (readyState sk (disconnect s)) as [r|] eqn:Hrs; cbn;
      [|discriminate].
    now rewrite (disconnect_closes_socket s sk r Hsk Hrs).
  - intros Htr. pose proof (disconnect_disarms_tracked s Htr) as Hoff.
    unfold pendingReconnects, runningGenerators.
    rewrite !filter_all_false; [split; reflexivity| |];
      intros j t Hj; specialize (Hoff j t Hj);
      unfold runningGenerator, pendingReconnect; rewrite Hoff;
      now destruct (kind t).
Qed.

Lemma demoState_tracked : tracked demoState.
Proof.
  intros [|id] t Hid Ha; cbn in Hid; [|discriminate].
  injection Hid as <-. reflexivity.
Defined.

Lemma disconnect_idempotent_witness :
  tracked demoState
  /\ runningGenerators demoState = 1%nat
  /\ runningGenerators (disconnect demoState) = 0%nat
  /\ disconnect (disconnect demoState) = disconnect demoState.
Proof.
  split; [exact demoState_tracked|]. split; [reflexivity|].
  pose proof (disconnect_idempotent demoState) as (_&_&_&_&_&_&Hi&Hw).
  split; [exact (proj2 (Hw demoState_tracked)) | exact Hi].
Defined.

(** C6.  [disconnect] does not stop a generator whose handle the adapter
    has lost.  After [enableDemoMode], [connect], [connect] two generators
    run and the adapter holds the second; [disconnect] resets the adapter
    (disconnected, no socket, no timer held, and a second [disconnect]
    changes nothing) and clears the second interval, but the first stays
    armed, and its next firing emits a reading from the disconnected
    adapter. *)
Theorem disconnect_misses_leaked_generator `{MathTrig} (k : DemoTick) :
  let s := run (init defaultConfig)
             [EnableDemoMode; Connect Constructed; Connect Constructed] in
  let s1 := disconnect s in
  runningGenerators s = 2%nat
  /\ isConnected s1 = false /\ socket s1 = None
  /\ reconnectInterval s1 = None /\ demoInterval s1 = None
  /\ disconnect s1 = s1
  /\ runningGenerators s1 = 1%nat
  /\ timers s1 !! 0%nat = Some (mkTimer DemoInterval 250 true)
  /\ readings (emitted s1) = []
  /\ readings (emitted (stepEvent s1 (DemoFire 0 k))) = [demoReading k].
Proof.
  intros s s1.
  assert (E : stepEvent s1 (DemoFire 0 k) = generateDemoData k s1)
    by reflexivity.
  rewrite E, generateDemoData_readings. now repeat split.
Qed.

(** C10.  From every state, [disconnect] clears the demo-mode flag of the
    adapter (the [demoMode] entry of the configuration stays as it was),
    so the next [connect] takes the live path: it constructs a socket,
    holds it, and starts no generator. *)
Theorem disconnect_resets_demo_mode (s : Sys) :
  let s1 := disconnect s in
  let s2 := fst (connect Constructed s1) in
  isDemoMode s1 = false
  /\ demoMode (config s1) = demoMode (config s)
  /\ snd (connect Constructed s1) = Fulfilled
  /\ sockets s2 = sockets s1 ++ [CONNECTING]
  /\ socket s2 = Some (length (sockets s1))
  /\ readyState (length (sockets s1)) s2 = Some CONNECTING
  /\ timers s2 = timers s1
  /\ demoInterval s2 = None
  /\ emitted s2 = emitted s.
Proof.
  intros s1 s2.
  assert (Hd : isDemoMode s1 = false) by apply disconnect_fields.
  assert (E : connect Constructed s1
              = (set_socket (Some (length (sockets s1)))
                   (set_sockets (sockets s1 ++ [CONNECTING]) s1),
                 Fulfilled)).
  { unfold connect. rewrite Hd. reflexivity. }
  subst s2. rewrite E. cbn [fst snd].
  split; [exact Hd|]. split.
  { subst s1.
    destruct s as [[sk|] c [r|] d [g|] dm cfg sks ts w em]; reflexivity. }
  repeat (split; [reflexivity|]).
  split; [|split; [reflexivity|split; [apply disconnect_fields|]]].
  - unfold readyState. cbn. apply list_lookup_middle. reflexivity.
  - cbn. apply disconnect_fields.
Qed.

(** ** Merging of partial messages *)

Section MergeFacts.

Lemma lastNonzero_snoc (f : ThinkGearMessage -> option Q)
    (msgs : list ThinkGearMessage) (m : ThinkGearMessage) :
  lastNonzero f (msgs ++ [m])
  = match f m with
    | Some q => if nonzero q then q else lastNonzero f msgs
    | None => lastNonzero f msgs
    end.
Proof.
  unfold lastNonzero. rewrite omap_app, List.filter_app. cbn.
  destruct (f m) as [q|]; cbn.
  - destruct (nonzero q); cbn.
    + now rewrite last_snoc.
    + now rewrite app_nil_r.
  - now rewrite app_nil_r.
Qed.

(** The kept value is the literal [0] or a value that is not zero. *)
Lemma lastNonzero_cases (f : ThinkGearMessage -> option Q)
    (msgs : list ThinkGearMessage) :
  lastNonzero f msgs = 0 \/ Qeq_bool (lastNonzero f msgs) 0 = false.
Proof.
  induction msgs as [|m msgs IH] using rev_ind; [now left|].
  rewrite lastNonzero_snoc. destruct (f m) as [q|]; [|exact IH].
  unfold nonzero. destruct (Qeq_bool q 0) eqn:E; cbn; [exact IH|now right].
Qed.

(** [x || prev || 0] where [prev] already is such a kept value. *)
Lemma keep_previous (prev : Q) (cur : option BrainwaveData)
    (field : BrainwaveData -> Q) :
  from_option field 0 cur = prev ->
  prev = 0 \/ Qeq_bool prev 0 = false ->
  Js.orNum (field <$> cur) 0 = prev.
Proof.
  intros <- Hprev. destruct cur as [d|]; cbn in *; [|reflexivity].
  destruct Hprev as [->| ->]; reflexivity.
Qed.

Lemma merge_field (x : option Q) (prev : Q) (cur : option BrainwaveData)
    (field : BrainwaveData -> Q) :
  from_option field 0 cur = prev ->
  prev = 0 \/ Qeq_bool prev 0 = false ->
  Js.orNum (Js.or x (field <$> cur)) 0
  = match x with
    | Some q => if nonzero q then q else prev
    | None => prev
    end.
Proof.
  intros Hcur Hprev. unfold Js.or, Js.truthy, nonzero.
  destruct x as [q|]; [|now apply keep_previous].
  destruct (Qeq_bool q 0) eqn:E; cbn; [now apply keep_previous|].
  now rewrite E.
Qed.

Lemma handle_currentData (m : ThinkGearMessage) (now now' : Z) (s : Sys) :
  currentData (handleThinkGearMessage m now now' s)
  = if present (parseMessage m)
    then Some (mergeData (parseMessage m) (currentData s) now)
    else currentData s.
Proof.
  unfold handleThinkGearMessage.
  destruct (present _), (Js.truthy (blinkStrength m)),
    (Js.truthy (rawEeg m)); reflexivity.
Qed.

(** A value the parser replaced by [0] is dropped like an absent one. *)
Lemma orNum_zero_nonzero (x : option Q) (prev : Q) :
  (if nonzero (Js.orNum x 0) then Js.orNum x 0 else prev)
  = match x with
    | Some q => if nonzero q then q else prev
    | None => prev
    end.
Proof.
  unfold nonzero. destruct x as [q|]; cbn; [|reflexivity].
  destruct (Qeq_bool q 0) eqn:E; cbn; [reflexivity|now rewrite E].
Qed.

(** What the adapter holds after any run of messages: per field, the
    most recent observation that is not zero. *)
Lemma feed_keeps_last_nonzero (now : Z) (cfg : NeuroSkyConfig)
    (msgs : list ThinkGearMessage) :
  let cur := currentData (feed now (init cfg) msgs) in
  from_option attention 0 cur = lastNonzero observedAttention msgs
  /\ from_option meditation 0 cur = lastNonzero observedMeditation msgs
  /\ from_option signalQuality 0 cur = lastNonzero observedQuality msgs.
Proof.
  induction msgs as [|m msgs IH] using rev_ind; [now repeat split|].
  cbn zeta in *. unfold feed in *. rewrite fold_left_app. cbn [fold_left].
  rewrite handle_currentData, !lastNonzero_snoc.
  set (cur := currentData (fold_left _ msgs (init cfg))) in *.
  destruct IH as (Ha & Hm & Hq).
  pose proof (lastNonzero_cases observedAttention msgs) as Ca.
  pose proof (lastNonzero_cases observedMeditation msgs) as Cm.
  pose proof (lastNonzero_cases observedQuality msgs) as Cq.
  pose proof (fun x => merge_field x _ cur attention Ha Ca) as Ma.
  pose proof (fun x => merge_field x _ cur meditation Hm Cm) as Mm.
  pose proof (fun x => merge_field x _ cur signalQuality Hq Cq) as Mq.
  unfold observedAttention, observedMeditation, observedQuality,
    present, parseMessage, mergeData.
  destruct m as [[[ea em]|] lvl bl raw];
    cbn [eSense poorSignalLevel es_attention es_meditation mbind
         option_bind fmap option_fmap option_map
         p_attention p_meditation p_signalQuality Js.defined orb
         from_option attention meditation signalQuality].
  - rewrite Ma, Mm, Mq, !orNum_zero_nonzero.
    destruct lvl as [l|]; now repeat split.
  - destruct lvl as [l|]; cbn [orb].
    + rewrite Ma, Mm, Mq. now repeat split.
    + now repeat split.
Qed.

End MergeFacts.

(** C2.  A zero is not carried into the reading.  The headset reports
    poor-signal level 0, then 200: the quality observed last is 0, and
    both readings emitted carry quality 100.  Likewise attention 80 and
    meditation 60 followed by attention 0 and meditation 0 leave 80 and 60
    in the second reading. *)
Theorem zero_observation_not_reflected :
  let s0 := run (init defaultConfig) [Connect Constructed; SockOpen 0] in
  let s := run s0 (deliver 0 1000 contactLost) in
  let s' := run s0 (deliver 0 1000 attentionLost) in
  lastObserved observedQuality contactLost == 0
  /\ Forall2 Qeq (signalQuality <$> readings (emitted s)) [100; 100]
  /\ lastObserved observedAttention attentionLost == 0
  /\ lastObserved observedMeditation attentionLost == 0
  /\ Forall2 Qeq (attention <$> readings (emitted s')) [80; 80]
  /\ Forall2 Qeq (meditation <$> readings (emitted s')) [60; 60].
Proof.
  cbv zeta. vm_compute readings. vm_compute lastObserved.
  repeat split; repeat constructor.
Qed.

(** * Further properties of the relay *)

(** ** The signal-quality mapping outside its scale *)

Lemma quality_le_100_iff (level : Q) : quality level <= 100 <-> 0 <= level.
Proof.
  unfold quality, Js.max. pose proof (scale_half level) as E.
  destruct (Q.max_spec 0 (100 - level * 100 / 200)) as [[? Emax]|[? Emax]];
    rewrite Emax; split; intros; lra.
Qed.

(** X1.  The mapping is clamped below only.  The quality is never
    negative, and a level that is not negative gives at most 100; a whole
    level gives at most 100 exactly when it is not negative, so a negative
    whole level gives more than 100. *)
Theorem quality_range (level : Q) (z : Z) :
  0 <= level ->
  (forall x : Q, 0 <= quality x)
  /\ quality level <= 100
  /\ (quality (inject_Z z) <= 100 <-> (0 <= z)%Z).
Proof.
  intros Hl. split; [apply quality_nonneg|].
  split; [now apply quality_le_100_iff|].
  rewrite quality_le_100_iff, (Zle_Qle 0 z). reflexivity.
Qed.

Lemma quality_range_witness :
  0 <= 200 /\ quality 200 <= 100
  /\ (quality (inject_Z (-2)) <= 100 <-> (0 <= -2)%Z).
Proof.
  assert (H : 0 <= 200) by (vm_compute; discriminate).
  split; [exact H|]. exact (proj2 (quality_range 200 (-2) H)).
Defined.

(** ** Message handling *)

Lemma onMessage_frame (payload : option ThinkGearMessage)
    (now now' : Z) (s : Sys) :
  let s' := onMessage payload now now' s in
  socket s' = socket s /\ isConnected s' = isConnected s
  /\ reconnectInterval s' = reconnectInterval s
  /\ demoInterval s' = demoInterval s
  /\ isDemoMode s' = isDemoMode s /\ config s' = config s
  /\ sockets s' = sockets s /\ timers s' = timers s /\ wire s' = wire s.
Proof.
  destruct payload as [m|]; cbn; [|now repeat split].
  unfold handleThinkGearMessage.
  destruct (present _), (Js.truthy (blinkStrength m)),
    (Js.truthy (rawEeg m)); now repeat split.
Qed.

(** X3.  No inbound message, well-formed or not, touches the connection:
    the held socket, the connected flag, the mode, the configuration, the
    timers, the sockets and the frames sent upstream stay as they were.  A
    payload that does not parse changes nothing at all. *)
Theorem message_keeps_connection (payload : option ThinkGearMessage)
    (now now' : Z) (s : Sys) :
  let s' := onMessage payload now now' s in
  socket s' = socket s /\ isConnected s' = isConnected s
  /\ reconnectInterval s' = reconnectInterval s
  /\ demoInterval s' = demoInterval s
  /\ isDemoMode s' = isDemoMode s /\ config s' = config s
  /\ sockets s' = sockets s /\ timers s' = timers s /\ wire s' = wire s
  /\ onMessage None now now' s = s.
Proof.
  pose proof (onMessage_frame payload now now' s) as Hf. cbn zeta in *.
  destruct Hf as (?&?&?&?&?&?&?&?&?). now repeat split.
Qed.

(** ** Synthetic generation *)

Section TickFacts.
Context `{MathTrig}.

Lemma clamp_whole (lo hi x : Q) :
  wholeNumber lo -> wholeNumber hi ->
  wholeNumber (Js.max lo (Js.min hi (Js.round x))).
Proof.
  intros [a Ha] [b Hb]. unfold wholeNumber, Js.max, Js.min, Js.round.
  destruct (Q.max_spec lo (Qmin hi (inject_Z (Qfloor (x + (1 # 2))))))
    as [[_ Emax]|[_ Emax]]; [|exists a; now rewrite Emax].
  destruct (Q.min_spec hi (inject_Z (Qfloor (x + (1 # 2)))))
    as [[_ Emin]|[_ Emin]].
  - exists b. now rewrite Emax, Emin.
  - exists (Qfloor (x + (1 # 2))). now rewrite Emax, Emin.
Qed.

Lemma round_between (lo hi : Z) (x : Q) :
  inject_Z lo <= x -> x < inject_Z hi ->
  inject_Z lo <= Js.round x /\ Js.round x <= inject_Z hi.
Proof.
  intros Hlo Hhi. unfold Js.round.
  pose proof (Qfloor_le (x + (1 # 2))) as Hle.
  pose proof (Qlt_floor (x + (1 # 2))) as Hlt.
  rewrite <- !Zle_Qle. rewrite inject_Z_plus in Hlt.
  change (inject_Z 1) with 1 in Hlt.
  assert (H1 : inject_Z lo < inject_Z (Qfloor (x + (1 # 2)) + 1)).
  { rewrite inject_Z_plus. change (inject_Z 1) with 1. lra. }
  assert (H2 : inject_Z (Qfloor (x + (1 # 2))) < inject_Z (hi + 1)).
  { rewrite inject_Z_plus. change (inject_Z 1) with 1. lra. }
  rewrite <- Zlt_Qlt in H1, H2. lia.
Qed.

End TickFacts.

(** X10.  Every synthetic reading carries whole numbers. *)
Theorem demo_readings_whole `{MathTrig} (k : DemoTick) :
  wholeNumber (attention (demoReading k))
  /\ wholeNumber (meditation (demoReading k))
  /\ wholeNumber (signalQuality (demoReading k)).
Proof.
  unfold demoReading. cbn [attention meditation signalQuality].
  repeat split; apply clamp_whole;
    (now exists 0%Z) || (now exists 100%Z) || (now exists 60%Z).
Qed.

(** X9.  One run of the generator emits exactly one reading and after it
    at most one blink; the blink is emitted exactly when the random draw
    is below 0.02, and for a draw of strength in [[0,1)] its strength lies
    in [[20,50]]. *)
Theorem tick_emits `{MathTrig} (k : DemoTick) (s : Sys) :
  0 <= rnd_strength k -> rnd_strength k < 1 ->
  exists tail : list Emitted,
    emitted (generateDemoData k s)
    = emitted s ++ EvData (demoReading k) :: tail
    /\ ((tail = [] /\ 0.02 <= rnd_blink k)
        \/ (exists b : Q, tail = [EvBlink b] /\ inRange 20 50 b
                          /\ rnd_blink k < 0.02)).
Proof.
  intros Hlo Hhi. unfold generateDemoData.
  destruct (Qle_bool 0.02 (rnd_blink k)) eqn:Hb; cbn [negb].
  - exists []. split; [reflexivity|]. left. split; [reflexivity|].
    now apply Qle_bool_iff.
  - exists [EvBlink (Js.round (20 + 30 * rnd_strength k))]. split.
    + cbn. now rewrite <- app_assoc.
    + right. eexists. split; [reflexivity|]. split.
      * apply (round_between 20 50); unfold inject_Z; lra.
      * apply Qnot_le_lt. intros Hle. apply Qle_bool_iff in Hle. congruence.
Qed.

Lemma tick_emits_witness :
  (0 <= rnd_strength sampleTick /\ rnd_strength sampleTick < 1)
  /\ exists tail : list Emitted,
       emitted (@generateDemoData flatTrig sampleTick demoState)
       = emitted demoState ++ EvData (@demoReading flatTrig sampleTick) :: tail
       /\ ((tail = [] /\ 0.02 <= rnd_blink sampleTick)
           \/ (exists b : Q, tail = [EvBlink b] /\ inRange 20 50 b
                             /\ rnd_blink sampleTick < 0.02)).
Proof.
  split; [split; vm_compute; congruence|].
  apply (@tick_emits flatTrig sampleTick demoState); vm_compute; congruence.
Defined.

(** X8.  Once [disconnect] has run, the interval the adapter held is
    dead: its firing emits nothing and changes nothing. *)
Theorem tick_after_disconnect `{MathTrig} (id : nat) (k : DemoTick)
    (s : Sys) :
  let s' := disconnect (set_demoInterval (Some id) s) in
  stepEvent s' (DemoFire id k) = s'.
Proof.
  cbn zeta. unfold stepEvent. rewrite disconnect_timers.
  cbn [demoInterval set_demoInterval from_option timers reconnectInterval].
  rewrite list_lookup_alter_eq.
  destruct (_ !! id) as [[[] ms []]|]; reflexivity.
Qed.

(** ** The availability probe *)

(** X11.  Whatever events reach the probe and in whatever order, it calls
    [close] on its socket at most once. *)
Theorem probe_closes_at_most_once (ctor : CtorOutcome)
    (os : list Probe.Outcome) :
  (Probe.closeCalls (Probe.run (Probe.checkThinkGearConnector ctor) os)
   <= 1)%nat.
Proof.
  set (inv := fun st : Probe.State =>
    Probe.closeCalls st = 0%nat
    \/ (Probe.closeCalls st = 1%nat /\ Probe.timeoutArmed st = false
        /\ Probe.testSocket st <> Some CONNECTING)).
  assert (Hstep : forall st o, inv st -> inv (Probe.step st o)).
  { intros [sock arm ms p n] o. unfold inv, Probe.step.
    destruct o, sock as [[]|], arm; cbn;
      intros [->|(-> & Harm & Hsock)]; try discriminate; try tauto;
      right; repeat split; congruence. }
  assert (Hrun : forall st, inv st -> inv (Probe.run st os)).
  { induction os as [|o os IH]; intros st Hst; cbn; [exact Hst|].
    apply IH, Hstep, Hst. }
  destruct (Hrun (Probe.checkThinkGearConnector ctor)) as [->|(-> & _)];
    [destruct ctor; now left | lia | lia].
Qed.

(** ** The adapter's mode switches *)

(** X21.  [disableDemoMode] absorbs a preceding [enableDemoMode], is
    idempotent, and absorbs a following [disconnect]; it always leaves the
    adapter disconnected with the mode flag and the configured default
    both off.  [enableDemoMode] is idempotent. *)
Theorem demo_toggle_laws (s : Sys) :
  disableDemoMode (enableDemoMode s) = disableDemoMode s
  /\ disableDemoMode (disableDemoMode s) = disableDemoMode s
  /\ disconnect (disableDemoMode s) = disableDemoMode s
  /\ enableDemoMode (enableDemoMode s) = enableDemoMode s
  /\ isConnected (disableDemoMode s) = false
  /\ isDemoMode (disableDemoMode s) = false
  /\ demoMode (config (disableDemoMode s)) = false
  /\ autoConnect (config (disableDemoMode s)) = autoConnect (config s).
Proof.
  destruct s as [[sk|] c [r|] d [g|] dm [ac dmc] sks ts w em];
    repeat split.
Qed.

(** ** The client's signal badge *)

Section BadgeFacts.
Import Client.

Lemma geq_true (x y : Q) : geq x y = true <-> y <= x.
Proof. apply Qle_bool_iff. Qed.

Lemma geq_false (x y : Q) : geq x y = false <-> x < y.
Proof.
  unfold geq. split.
  - intros Hf. apply Qnot_le_lt. intros Hle.
    apply Qle_bool_iff in Hle. congruence.
  - intros Hlt. destruct (Qle_bool y x) eqn:E; [|reflexivity].
    apply Qle_bool_iff in E. lra.
Qed.

(** The level of a reading, by the thresholds it passes. *)
Lemma level_thresholds (d : BrainwaveData) :
  let q := signalQuality d in
  let n := level (getSignalQuality (Some d)) in
  (1 <= n <= 5)%nat
  /\ (80 <= q <-> (5 <= n)%nat) /\ (60 <= q <-> (4 <= n)%nat)
  /\ (40 <= q <-> (3 <= n)%nat) /\ (20 <= q <-> (2 <= n)%nat).
Proof.
  cbn zeta. unfold getSignalQuality.
  destruct (geq (signalQuality d) 80) eqn:E80;
  [|destruct (geq (signalQuality d) 60) eqn:E60;
    [|destruct (geq (signalQuality d) 40) eqn:E40;
      [|destruct (geq (signalQuality d) 20) eqn:E20]]];
    cbn [level];
    rewrite ?geq_true, ?geq_false in *;
    (split; [lia|]); repeat split; intros;
    first [lia | lra | exfalso; lra | exfalso; lia].
Qed.

End BadgeFacts.

(** X17.  The badge level grows with the signal quality: a reading of
    higher quality never gets a lower level.  A reading always gets a
    level from 1 to 5, and level 0 stands for no reading at all. *)
Theorem badge_level_monotone (d1 d2 : BrainwaveData) :
  signalQuality d1 <= signalQuality d2 ->
  (Client.level (Client.getSignalQuality (Some d1))
   <= Client.level (Client.getSignalQuality (Some d2)))%nat
  /\ (1 <= Client.level (Client.getSignalQuality (Some d1)) <= 5)%nat
  /\ Client.level (Client.getSignalQuality None) = 0%nat.
Proof.
  intros Hle.
  pose proof (level_thresholds d1) as (B1 & A1 & A2 & A3 & A4).
  pose proof (level_thresholds d2) as (B2 & C1 & C2 & C3 & C4).
  cbn zeta in *. split; [|split; [exact B1|reflexivity]].
  set (n1 := Client.level (Client.getSignalQuality (Some d1))) in *.
  set (n2 := Client.level (Client.getSignalQuality (Some d2))) in *.
  assert (H5 : (5 <= n1 -> 5 <= n2)%nat)
    by (intros Hn; apply C1; apply A1 in Hn; lra).
  assert (H4 : (4 <= n1 -> 4 <= n2)%nat)
    by (intros Hn; apply C2; apply A2 in Hn; lra).
  assert (H3 : (3 <= n1 -> 3 <= n2)%nat)
    by (intros Hn; apply C3; apply A3 in Hn; lra).
  assert (H2 : (2 <= n1 -> 2 <= n2)%nat)
    by (intros Hn; apply C4; apply A4 in Hn; lra).
  lia.
Qed.

Lemma badge_level_monotone_witness :
  signalQuality (mkData 0 0 30 0) <= signalQuality (mkData 0 0 90 0)
  /\ (Client.level (Client.getSignalQuality (Some (mkData 0 0 30 0)))
      <= Client.level (Client.getSignalQuality (Some (mkData 0 0 90 0))))%nat.
Proof.
  assert (Hle : signalQuality (mkData 0 0 30 0)
                <= signalQuality (mkData 0 0 90 0))
    by (vm_compute; congruence).
  split; [exact Hle|].
  exact (proj1 (badge_level_monotone _ _ Hle)).
Defined.

(** X20.  A synthetic reading is always shown as [Good] or [Excellent]:
    its badge level is 4 or 5. *)
Theorem demo_badge_good `{MathTrig} (k : DemoTick) :
  (4 <= Client.level (Client.getSignalQuality (Some (demoReading k))))%nat.
Proof.
  pose proof (demoReading_bounds k) as (_ & _ & Hq & _).
  now apply (level_thresholds (demoReading k)).
Qed.

(** ** The subscriber registry *)

Section RegistryFacts.
Import Hub Route.
Context {Payload : Type} (stringify : Payload -> string).

Lemma broadcast_sends (clients : list Client) (data : Payload) :
  sends (snd (broadcast stringify clients data))
  = (fun c => (handle c, stringify data)) <$> List.filter isOpen clients.
Proof.
  unfold broadcast; cbn [snd]. rewrite forEach_sendIfOpen.
  change ([Stringify] ++ ?l) with (Stringify :: l).
  change (sends (Stringify :: ?l)) with (sends l).
  apply sends_fmap_Send.
Qed.

Lemma hasClient_elem (h : nat) (clients : list Client) :
  hasClient h clients = true <-> h ∈ handle <$> clients.
Proof.
  unfold hasClient. induction clients as [|c cs IH]; cbn.
  - split; [discriminate | intros Hin; inversion Hin].
  - rewrite orb_true_iff, IH, elem_of_cons, Nat.eqb_eq.
    split; intros [?|?]; auto.
Qed.

Lemma deleteClient_handles (h : nat) (clients : list Client) :
  forall h' : nat,
    h' ∈ handle <$> deleteClient h clients
    <-> h' <> h /\ h' ∈ handle <$> clients.
Proof.
  intros h'. unfold deleteClient.
  induction clients as [|c cs IH]; cbn.
  - split; [intros Hin; inversion Hin | intros [_ Hin]; inversion Hin].
  - destruct (Nat.eqb_spec (handle c) h) as [E|E]; cbn;
      rewrite ?elem_of_cons, IH; intuition congruence.
Qed.

End RegistryFacts.

(** X12.  The registry is a set: registering a socket that is already
    there changes nothing, so while the handles are distinct they stay
    distinct, and one broadcast reaches a subscriber at most once. *)
Theorem registry_delivers_once {Payload : Type}
    (stringify : Payload -> string) (ws : Hub.Client)
    (clients : list Hub.Client) (data : Payload) :
  NoDup (Hub.handle <$> clients) ->
  let clients' := Route.addClient ws clients in
  NoDup (Hub.handle <$> clients')
  /\ Route.addClient ws clients' = clients'
  /\ NoDup (fst <$> Hub.sends (snd (Hub.broadcast stringify clients' data))).
Proof.
  intros Hnd clients'.
  assert (Hnd' : NoDup (Hub.handle <$> clients')).
  { subst clients'. unfold Route.addClient.
    destruct (Route.hasClient (Hub.handle ws) clients) eqn:E; [exact Hnd|].
    rewrite fmap_app. apply NoDup_app. split; [exact Hnd|]. split.
    - intros h Hin Hin'. apply list_elem_of_singleton in Hin' as ->.
      apply hasClient_elem in Hin. congruence.
    - apply NoDup_singleton. }
  split; [exact Hnd'|]. split.
  - subst clients'. unfold Route.addClient.
    destruct (Route.hasClient (Hub.handle ws) clients) eqn:E.
    + now rewrite E.
    + assert (Hin : Route.hasClient (Hub.handle ws) (clients ++ [ws]) = true).
      { apply hasClient_elem. rewrite fmap_app. apply elem_of_app. right.
        now apply list_elem_of_singleton. }
      now rewrite Hin.
  - rewrite broadcast_sends, <- list_fmap_compose.
    change (fst ∘ _) with Hub.handle.
    clear -Hnd'. induction clients' as [|c cs IH]; cbn; [constructor|].
    apply NoDup_cons in Hnd' as [Hc Hcs].
    destruct (Hub.isOpen c); cbn; [|now apply IH].
    apply NoDup_cons. split; [|now apply IH].
    intros Hin. apply Hc.
    apply list_elem_of_fmap in Hin as (c' & -> & Hc').
    apply list_elem_of_fmap. exists c'. split; [reflexivity|].
    apply list_elem_of_In, List.filter_In in Hc' as [Hc' _].
    now apply list_elem_of_In.
Qed.

Lemma registry_delivers_once_witness :
  NoDup (Hub.handle <$> [Hub.mkClient 1 OPEN])
  /\ NoDup (fst <$> Hub.sends (snd (Hub.broadcast (fun _ : unit => "msg"%string)
              (Route.addClient (Hub.mkClient 1 OPEN) [Hub.mkClient 1 OPEN])
              tt))).
Proof.
  assert (Hnd : NoDup (Hub.handle <$> [Hub.mkClient 1 OPEN]))
    by (apply NoDup_singleton).
  split; [exact Hnd|].
  exact (proj2 (proj2 (registry_delivers_once (fun _ : unit => "msg"%string)
                         (Hub.mkClient 1 OPEN) [Hub.mkClient 1 OPEN] tt Hnd))).
Defined.

(** X13.  After the [close] or [error] listener of a subscriber has run,
    no broadcast reaches that subscriber, and every other subscriber is
    served exactly as before. *)
Theorem closed_subscriber_unreachable {Payload : Type}
    (stringify : Payload -> string) (h : nat) (clients : list Hub.Client)
    (data : Payload) :
  let remaining := Route.onClientClose h clients in
  (h ∉ fst <$> Hub.sends (snd (Hub.broadcast stringify remaining data)))
  /\ Hub.sends (snd (Hub.broadcast stringify remaining data))
     = List.filter (fun p => negb (Nat.eqb (fst p) h))
         (Hub.sends (snd (Hub.broadcast stringify clients data))).
Proof.
  cbn zeta. unfold Route.onClientClose. rewrite !broadcast_sends. split.
  - rewrite <- list_fmap_compose. change (fst ∘ _) with Hub.handle.
    intros Hin. apply list_elem_of_fmap in Hin as (c & -> & Hc).
    apply list_elem_of_In, List.filter_In in Hc as [Hc _].
    apply list_elem_of_In in Hc.
    assert (Hh : Hub.handle c ∈ Hub.handle <$> Route.deleteClient
                   (Hub.handle c) clients)
      by (apply list_elem_of_fmap; eauto).
    apply deleteClient_handles in Hh as [Hne _]. congruence.
  - unfold Route.deleteClient.
    induction clients as [|c cs IH]; cbn; [reflexivity|].
    destruct (Nat.eqb (Hub.handle c) h) eqn:E, (Hub.isOpen c) eqn:O; cbn;
      rewrite ?O, ?E; cbn; now rewrite ?IH.
Qed.

(** ** The session sink *)

(** X16.  A reading is stored for the active sessions in order, up to the
    first session for which the store rejects: the sessions before it get
    one record each, carrying the reading's three values and the reading
    itself, that session and all later ones get none, and the error is
    logged.  With no rejection every active session gets its record and
    nothing is logged; if the list of active sessions cannot be read,
    nothing is stored. *)
Theorem sink_stores_prefix {SessionId : Type} (addFails : SessionId -> bool)
    (sessions : list SessionId) (data : BrainwaveData) :
  let result := Route.storeReading addFails (Some sessions) data in
  exists done skipped : list SessionId,
    sessions = done ++ skipped
    /\ fst result = Route.recordFor data <$> done
    /\ Forall (fun sid => addFails sid = false) done
    /\ snd result = match skipped with
                    | [] => false
                    | sid :: _ => addFails sid
                    end
    /\ (snd result = false <-> skipped = [])
    /\ Route.storeReading addFails None data = ([], true).
Proof.
  cbn zeta. cbn [Route.storeReading].
  induction sessions as [|sid rest IH]; cbn.
  - exists [], []. now repeat split.
  - destruct (addFails sid) eqn:E.
    + exists [], (sid :: rest). cbn. rewrite E.
      repeat split; try constructor; discriminate.
    + destruct IH as (done & skipped & -> & Hst & Hok & Hlog & Hiff & _).
      destruct (Route.storeEach addFails (done ++ skipped) data)
        as [stored logged]; cbn in *.
      exists (sid :: done), skipped. cbn. subst stored.
      repeat split; try (now constructor); try exact Hlog; apply Hiff.
Qed.

(** ** The connect route *)

(** X18.  [POST /api/neurosky/connect] answers 500 only when the adapter
    is in live mode and the socket constructor throws.  Otherwise it
    answers success, and in live mode the connected flag is then still
    what it was before the request: the answer does not wait for the
    handshake. *)
Theorem postConnect_reply (ctor : CtorOutcome) (s : Sys) :
  let result := Route.postConnect ctor s in
  Route.success (snd result)
  = (isDemoMode s || match ctor with Constructed => true | Throws _ => false end)
  /\ Route.status (snd result)
     = (if Route.success (snd result) then 200 else 500)%Z
  /\ isConnected (fst result) = (isDemoMode s || isConnected s).
Proof.
  unfold Route.postConnect, connect.
  destruct (isDemoMode s) eqn:D, ctor; cbn; rewrite ?D; repeat split.
Qed.

(** ** Reconnect timers *)

Section ReconnectFacts.

Lemma pending_armed (t : Timer) : pendingReconnect t = true -> armed t = true.
Proof. unfold pendingReconnect. now destruct (kind t). Qed.

Lemma heldIn_none (ts : list Timer) (r : option nat) :
  heldIn ts None -> heldIn ts r.
Proof. intros Hn j t Hj Hp. now specialize (Hn j t Hj Hp). Qed.

Lemma heldIn_alter (id : nat) (ts : list Timer) (r : option nat) :
  heldIn ts r -> heldIn (alter disarm id ts) r.
Proof.
  intros Hh j t Hj Hp.
  apply disarm_lookup in Hj as [_ Hj]; [|now apply pending_armed]. eauto.
Qed.

(** Clearing the held timer leaves no reconnect pending. *)
Lemma heldIn_clear (ts : list Timer) (r : option nat) :
  heldIn ts r -> heldIn (from_option (alter disarm) id r ts) None.
Proof.
  intros Hh j t Hj Hp. destruct r as [r|]; cbn in Hj.
  - apply disarm_lookup in Hj as [Hne Hj]; [|now apply pending_armed].
    specialize (Hh j t Hj Hp). congruence.
  - exact (Hh j t Hj Hp).
Qed.

Lemma heldIn_app_demo (ts : list Timer) (r : option nat) (ms : Z) (a : bool) :
  heldIn ts r -> heldIn (ts ++ [mkTimer DemoInterval ms a]) r.
Proof.
  intros Hh j t Hj Hp. apply lookup_app_Some in Hj as [Hj|[_ Hj]]; [eauto|].
  apply list_lookup_singleton_Some in Hj as [_ <-]. discriminate Hp.
Qed.

Lemma heldIn_app_new (ts : list Timer) (ms : Z) :
  heldIn ts None ->
  heldIn (ts ++ [mkTimer ReconnectTimeout ms true]) (Some (length ts)).
Proof.
  intros Hh j t Hj Hp. apply lookup_app_Some in Hj as [Hj|[Hge Hj]].
  - now specialize (Hh j t Hj Hp).
  - apply list_lookup_singleton_Some in Hj as [Hz _]. f_equal. lia.
Qed.

(** At most one element can sit at the one held index. *)
Lemma heldIn_count (ts : list Timer) (r : option nat) :
  heldIn ts r -> (length (List.filter pendingReconnect ts) <= 1)%nat.
Proof.
  revert r. induction ts as [|t ts IH]; intros r Hh; cbn; [lia|].
  destruct (pendingReconnect t) eqn:Hp; cbn.
  - rewrite (filter_all_false pendingReconnect ts); [cbn; lia|].
    intros j x Hj. destruct (pendingReconnect x) eqn:Hx; [|reflexivity].
    pose proof (Hh 0%nat t eq_refl Hp) as H0.
    pose proof (Hh (S j) x Hj Hx) as H1. congruence.
  - apply (IH (pred <$> r)). intros j x Hj Hx.
    now rewrite (Hh (S j) x Hj Hx).
Qed.

End ReconnectFacts.

Section LoopFacts.
Context `{MathTrig}.

Lemma disableDemoMode_timers (s : Sys) :
  timers (disableDemoMode s)
  = from_option (alter disarm) id (reconnectInterval s)
      (from_option (alter disarm) id (demoInterval s) (timers s))
  /\ reconnectInterval (disableDemoMode s) = None.
Proof.
  destruct s as [[sk|] c [r|] d [g|] dm cfg sks ts w em]; now split.
Qed.

(** The listeners other than [close] leave the timers alone. *)
Lemma onOpen_timers (s : Sys) :
  timers (onOpen s) = timers s
  /\ reconnectInterval (onOpen s) = reconnectInterval s
  /\ config (onOpen s) = config s.
Proof. unfold onOpen. cbn. repeat case_match; now repeat split. Qed.

Lemma onClose_timers (s : Sys) :
  (timers (onClose s), reconnectInterval (onClose s))
  = if autoConnect (config s) then
      (from_option (alter disarm) id (reconnectInterval s) (timers s)
         ++ [mkTimer ReconnectTimeout 5000 true],
       Some (length (from_option (alter disarm) id (reconnectInterval s)
                       (timers s))))
    else (timers s, reconnectInterval s).
Proof.
  unfold onClose, scheduleReconnect. cbn.
  destruct (autoConnect (config s)) eqn:E; [|reflexivity].
  destruct (reconnectInterval s) as [r|]; cbn; now rewrite E.
Qed.

Lemma onClose_held (s : Sys) :
  reconnectHeld s -> reconnectHeld (onClose s).
Proof.
  unfold reconnectHeld. intros Hh. pose proof (onClose_timers s) as E.
  destruct (autoConnect (config s)); injection E as -> ->; [|exact Hh].
  now apply heldIn_app_new, heldIn_clear.
Qed.

Lemma connect_held (ctor : CtorOutcome) (s : Sys) :
  reconnectHeld s -> reconnectHeld (fst (connect ctor s)).
Proof.
  unfold reconnectHeld, connect, startDemoMode.
  destruct (isDemoMode s), ctor; cbn; auto using heldIn_app_demo.
Qed.

Lemma clearTimer_held (id : nat) (s : Sys) :
  reconnectHeld s -> reconnectHeld (clearTimer id s).
Proof. apply heldIn_alter. Qed.

Lemma step_reconnectHeld (s : Sys) (i : Input) :
  reconnectHeld s -> reconnectHeld (step s i).
Proof.
  intros Hh. destruct i; cbn [step].
  - now apply connect_held.
  - unfold reconnectHeld in *. rewrite disconnect_timers.
    replace (reconnectInterval (disconnect s)) with (@None nat)
      by (symmetry; apply disconnect_fields).
    destruct (demoInterval s); cbn; [apply heldIn_alter|];
      now apply heldIn_clear.
  - exact Hh.
  - unfold reconnectHeld in *.
    destruct (disableDemoMode_timers s) as [-> ->].
    apply heldIn_clear. destruct (demoInterval s); cbn; [|exact Hh].
    now apply heldIn_alter.
  - unfold reconnectHeld, readyState in *. repeat case_match; try exact Hh.
    now destruct (onOpen_timers (setReadyState id OPEN s)) as (-> & -> & _).
  - unfold reconnectHeld, readyState in *. repeat case_match; try exact Hh.
    now destruct (onMessage_frame payload now now' s)
      as (_ & _ & -> & _ & _ & _ & _ & -> & _).
  - unfold readyState. repeat case_match; try exact Hh;
      now apply onClose_held.
  - unfold readyState. repeat case_match; exact Hh.
  - repeat case_match; try exact Hh. now apply connect_held, clearTimer_held.
Qed.

Lemma generateDemoData_frame (k : DemoTick) (s : Sys) :
  timers (generateDemoData k s) = timers s
  /\ reconnectInterval (generateDemoData k s) = reconnectInterval s
  /\ config (generateDemoData k s) = config s.
Proof. unfold generateDemoData. now destruct (negb _). Qed.

Lemma stepEvent_reconnectHeld (s : Sys) (e : Event) :
  reconnectHeld s -> reconnectHeld (stepEvent s e).
Proof.
  intros Hh. destruct e as [i|id k]; cbn; [now apply step_reconnectHeld|].
  repeat case_match; try exact Hh. unfold reconnectHeld.
  now destruct (generateDemoData_frame k s) as (-> & -> & _).
Qed.

Lemma runEvents_reconnectHeld (es : list Event) :
  forall s : Sys, reconnectHeld s -> reconnectHeld (runEvents s es).
Proof.
  induction es as [|e es IH]; intros s Hh; cbn; [exact Hh|].
  apply IH, stepEvent_reconnectHeld, Hh.
Qed.

End LoopFacts.

(** X6.  However the adapter is driven (calls, socket events, timers
    firing, in any order and any number), at most one reconnect timer is
    pending at any time: a new one is armed only after the one held has
    been cleared. *)
Theorem at_most_one_reconnect_pending `{MathTrig} (cfg : NeuroSkyConfig)
    (es : list Event) :
  (pendingReconnects (runEvents (init cfg) es) <= 1)%nat.
Proof.
  apply (heldIn_count _ (reconnectInterval (runEvents (init cfg) es))).
  apply runEvents_reconnectHeld. intros j t Hj. inversion Hj.
Qed.

Section ReconnectOffFacts.
Context `{MathTrig}.

Lemma allDemo_disarm (id : nat) (ts : list Timer) :
  Forall (fun t => kind t = DemoInterval) ts ->
  Forall (fun t => kind t = DemoInterval) (alter disarm id ts).
Proof. intros Hts. apply Forall_alter; [exact Hts|]. now intros t _ Ht. Qed.

Lemma allDemo_clear (o : option nat) (ts : list Timer) :
  Forall (fun t => kind t = DemoInterval) ts ->
  Forall (fun t => kind t = DemoInterval) (from_option (alter disarm) id o ts).
Proof. destruct o; cbn; [apply allDemo_disarm | auto]. Qed.

Lemma allDemo_none_pending (ts : list Timer) :
  Forall (fun t => kind t = DemoInterval) ts ->
  List.filter pendingReconnect ts = [].
Proof.
  intros Hts. apply filter_all_false. intros j t Hj.
  rewrite Forall_lookup in Hts. unfold pendingReconnect.
  now rewrite (Hts j t Hj).
Qed.

Lemma config_frame (s : Sys) :
  config (disconnect s) = config s
  /\ autoConnect (config (disableDemoMode s)) = autoConnect (config s)
  /\ autoConnect (config (enableDemoMode s)) = autoConnect (config s)
  /\ (forall ctor, config (fst (connect ctor s)) = config s)
  /\ config (onClose s) = config s.
Proof.
  repeat split.
  - destruct s as [[sk|] c [r|] d [g|] dm cfg sks ts w em]; reflexivity.
  - destruct s as [[sk|] c [r|] d [g|] dm cfg sks ts w em]; reflexivity.
  - intros ctor. unfold connect. now destruct (isDemoMode s), ctor.
  - unfold onClose, scheduleReconnect. cbn. now repeat case_match.
Qed.

Lemma connect_off (ctor : CtorOutcome) (s : Sys) :
  reconnectOff s -> reconnectOff (fst (connect ctor s)).
Proof.
  intros [Hc Hts]. split; [now rewrite (proj1 (proj2 (proj2 (proj2
    (config_frame s))))) |].
  unfold connect, startDemoMode. destruct (isDemoMode s), ctor; cbn; auto.
  all: apply Forall_app; split; [exact Hts | now repeat constructor].
Qed.

Lemma step_reconnectOff (s : Sys) (i : Input) :
  reconnectOff s -> reconnectOff (step s i).
Proof.
  intros Hoff. pose proof Hoff as [Hc Hts].
  pose proof (config_frame s) as (Cd & Cdd & Ce & Cc & Ccl).
  destruct i; cbn [step].
  - now apply connect_off.
  - split; [now rewrite Cd|]. rewrite disconnect_timers.
    now apply allDemo_clear, allDemo_clear.
  - split; [now rewrite Ce | exact Hts].
  - split; [now rewrite Cdd|].
    destruct (disableDemoMode_timers s) as [-> _].
    now apply allDemo_clear, allDemo_clear.
  - unfold readyState. repeat case_match; try exact Hoff.
    destruct (onOpen_timers (setReadyState id OPEN s)) as (Et & _ & Ec).
    unfold reconnectOff. now rewrite Et, Ec.
  - unfold readyState. repeat case_match; try exact Hoff.
    destruct (onMessage_frame payload now now' s)
      as (_ & _ & _ & _ & _ & Ec & _ & Et & _).
    unfold reconnectOff. now rewrite Et, Ec.
  - unfold readyState.
    assert (Hclose : reconnectOff (onClose (setReadyState id CLOSED s))).
    { pose proof (onClose_timers (setReadyState id CLOSED s)) as E.
      cbn [config setReadyState set_sockets] in E. rewrite Hc in E.
      injection E as Et _. split; [|now rewrite Et].
      now rewrite (proj2 (proj2 (proj2 (proj2
        (config_frame (setReadyState id CLOSED s)))))). }
    repeat case_match; try exact Hoff; exact Hclose.
  - unfold readyState. repeat case_match; exact Hoff.
  - repeat case_match; try exact Hoff. apply connect_off.
    split; [exact Hc | now apply allDemo_disarm].
Qed.

Lemma runEvents_reconnectOff (es : list Event) :
  forall s : Sys, reconnectOff s -> reconnectOff (runEvents s es).
Proof.
  induction es as [|e es IH]; intros s Hoff; cbn; [exact Hoff|].
  apply IH. destruct e as [i|id k]; cbn; [now apply step_reconnectOff|].
  repeat case_match; try exact Hoff.
  destruct (generateDemoData_frame k s) as (Et & _ & Ec).
  unfold reconnectOff. now rewrite Et, Ec.
Qed.

End ReconnectOffFacts.

(** X5.  With auto-reconnect off in the configuration, as the route module
    constructs the adapter, no reconnect is ever scheduled, however the
    adapter is driven: no reconnect timer is pending and none is ever
    created, and the setting itself is never changed. *)
Theorem no_reconnect_when_off `{MathTrig} (demo : bool) (es : list Event) :
  let s := runEvents (init (mkConfig false demo)) es in
  pendingReconnects s = 0%nat
  /\ Forall (fun t => kind t = DemoInterval) (timers s)
  /\ autoConnect (config s) = false.
Proof.
  assert (Hoff : reconnectOff (runEvents (init (mkConfig false demo)) es)).
  { apply runEvents_reconnectOff. split; [reflexivity | constructor]. }
  destruct Hoff as [Hc Hts]. cbn zeta. split; [|now split].
  unfold pendingReconnects. now rewrite allDemo_none_pending.
Qed.

(** ** The last reading *)

Section SyncFacts.
Context `{MathTrig}.

Lemma readings_snoc_quiet (es : list Emitted) (e : Emitted) :
  match e with EvData _ => False | _ => True end ->
  readings (es ++ [e]) = readings es.
Proof.
  intros He. rewrite readings_app. destruct e; cbn; try contradiction;
    apply app_nil_r.
Qed.

(** The operations that emit no reading and keep the current one. *)
Lemma connect_quiet (ctor : CtorOutcome) (s : Sys) :
  currentData (fst (connect ctor s)) = currentData s
  /\ readings (emitted (fst (connect ctor s))) = readings (emitted s).
Proof.
  unfold connect, startDemoMode. destruct (isDemoMode s), ctor; cbn;
    split; try reflexivity; now apply readings_snoc_quiet.
Qed.

Lemma disableDemoMode_quiet (s : Sys) :
  currentData (disableDemoMode s) = currentData s
  /\ emitted (disableDemoMode s) = emitted s.
Proof.
  destruct s as [[sk|] c [r|] d [g|] dm cfg sks ts w em]; now split.
Qed.

Lemma onOpen_quiet (s : Sys) :
  currentData (onOpen s) = currentData s
  /\ readings (emitted (onOpen s)) = readings (emitted s).
Proof.
  unfold onOpen. cbn. repeat case_match; cbn; split; try reflexivity;
    now apply readings_snoc_quiet.
Qed.

Lemma onClose_quiet (s : Sys) :
  currentData (onClose s) = currentData s
  /\ readings (emitted (onClose s)) = readings (emitted s).
Proof.
  unfold onClose, scheduleReconnect. cbn. repeat case_match; cbn;
    split; try reflexivity; now apply readings_snoc_quiet.
Qed.

Lemma handle_readings (m : ThinkGearMessage) (now now' : Z) (s : Sys) :
  readings (emitted (handleThinkGearMessage m now now' s))
  = readings (emitted s)
    ++ (if present (parseMessage m)
        then [mergeData (parseMessage m) (currentData s) now] else []).
Proof.
  unfold handleThinkGearMessage.
  destruct (present _), (Js.truthy (blinkStrength m)),
    (Js.truthy (rawEeg m)); cbn; rewrite ?readings_app; cbn;
    now rewrite ?app_nil_r.
Qed.

Lemma handle_sync (m : ThinkGearMessage) (now now' : Z) (s : Sys) :
  dataInSync s -> dataInSync (handleThinkGearMessage m now now' s).
Proof.
  unfold dataInSync. intros Hs.
  rewrite handle_currentData, handle_readings.
  destruct (present _); [now rewrite last_snoc | now rewrite app_nil_r].
Qed.

Lemma step_sync (s : Sys) (i : Input) : dataInSync s -> dataInSync (step s i).
Proof.
  unfold dataInSync. intros Hs. destruct i; cbn [step].
  - now destruct (connect_quiet ctor s) as [-> ->].
  - now destruct (disconnect_fields s) as (_&_&_&_&_& -> & ->).
  - exact Hs.
  - now destruct (disableDemoMode_quiet s) as [-> ->].
  - unfold readyState. repeat case_match; try exact Hs.
    now destruct (onOpen_quiet (setReadyState id OPEN s)) as [-> ->].
  - unfold readyState. repeat case_match; try exact Hs.
    destruct payload as [m|]; [|exact Hs]. now apply handle_sync.
  - unfold readyState. repeat case_match; try exact Hs;
      now destruct (onClose_quiet (setReadyState id CLOSED s)) as [-> ->].
  - unfold readyState. repeat case_match; try exact Hs; cbn;
      now rewrite readings_snoc_quiet.
  - repeat case_match; try exact Hs.
    now destruct (connect_quiet ctor (clearTimer id s)) as [-> ->].
Qed.

Lemma runEvents_sync (es : list Event) :
  forall s : Sys, dataInSync s -> dataInSync (runEvents s es).
Proof.
  induction es as [|e es IH]; intros s Hs; cbn; [exact Hs|].
  apply IH. destruct e as [i|id k]; cbn; [now apply step_sync|].
  repeat case_match; try exact Hs. unfold dataInSync.
  now rewrite generateDemoData_currentData, generateDemoData_readings,
    last_snoc.
Qed.

End SyncFacts.

(** X4.  However the adapter is driven, [getCurrentData] returns the last
    reading it emitted, live or synthetic, and [null] while it has emitted
    none; [disconnect] and the mode switches do not clear it. *)
Theorem current_data_is_last_reading `{MathTrig} (cfg : NeuroSkyConfig)
    (es : list Event) :
  let s := runEvents (init cfg) es in
  getCurrentData s = last (readings (emitted s))
  /\ getCurrentData (disconnect s) = getCurrentData s
  /\ getCurrentData (disableDemoMode s) = getCurrentData s.
Proof.
  cbn zeta. split; [|split].
  - apply runEvents_sync. reflexivity.
  - apply disconnect_fields.
  - apply disableDemoMode_quiet.
Qed.

(** X14.  A subscriber that connects with its socket open is sent exactly
    one message, the connection status, and the reading in it is the last
    one the adapter emitted; no other subscriber is sent anything.  A
    subscriber whose socket is not open is registered and sent nothing. *)
Theorem new_subscriber_status `{MathTrig}
    (stringify : Route.Outbound -> string) (cfg : NeuroSkyConfig)
    (es : list Event) (ws : Hub.Client) (clients : list Hub.Client) :
  let s := runEvents (init cfg) es in
  let result := Route.onConnection stringify s ws clients in
  fst result = Route.addClient ws clients
  /\ Hub.sends (snd result)
     = if Hub.isOpen ws then
         [(Hub.handle ws,
           stringify (Route.ConnectionStatus (isConnected s)
                        (last (readings (emitted s)))))]
       else [].
Proof.
  cbn zeta. unfold Route.onConnection; cbn [fst snd].
  split; [reflexivity|].
  assert (E : getCurrentData (runEvents (init cfg) es)
              = last (readings (emitted (runEvents (init cfg) es))))
    by (apply runEvents_sync; reflexivity).
  rewrite <- E. now destruct (Hub.isOpen ws).
Qed.

(** ** Ranges of live readings *)

Section RangeFacts.

Lemma zero_in_range : inRange 0 100 0.
Proof. split; lra. Qed.

Lemma orNum_range (x : option Q) :
  from_option (inRange 0 100) True x -> inRange 0 100 (Js.orNum x 0).
Proof.
  destruct x as [q|]; cbn; [|intros _; apply zero_in_range].
  intros Hq. destruct (Qeq_bool q 0); [apply zero_in_range | exact Hq].
Qed.

Lemma merge_range (x : option Q) (cur : option BrainwaveData)
    (field : BrainwaveData -> Q) :
  from_option (inRange 0 100) True x ->
  from_option (fun d => inRange 0 100 (field d)) True cur ->
  inRange 0 100 (Js.orNum (Js.or x (field <$> cur)) 0).
Proof.
  intros Hx Hc. apply orNum_range. unfold Js.or.
  destruct (Js.truthy x); [exact Hx|]. now destruct cur.
Qed.

Lemma parse_ranges (m : ThinkGearMessage) :
  validMessage m ->
  from_option (inRange 0 100) True (p_attention (parseMessage m))
  /\ from_option (inRange 0 100) True (p_meditation (parseMessage m))
  /\ from_option (inRange 0 100) True (p_signalQuality (parseMessage m)).
Proof.
  intros [He Hl]. unfold parseMessage.
  destruct m as [[[ea em]|] [l|] bl raw]; cbn in *.
  all: split; [|split]; try exact I.
  all: try (apply orNum_range, He).
  all: split; [apply quality_nonneg | now apply quality_le_100_iff].
Qed.

Lemma merge_percentages (m : ThinkGearMessage) (cur : option BrainwaveData)
    (now : Z) :
  validMessage m -> from_option percentages True cur ->
  percentages (mergeData (parseMessage m) cur now).
Proof.
  intros Hm Hc. destruct (parse_ranges m Hm) as (Ha & Hmed & Hq).
  unfold percentages, mergeData. cbn [attention meditation signalQuality].
  split; [|split]; apply merge_range; try assumption;
    (destruct cur as [d|]; [apply Hc | exact I]).
Qed.

Lemma feed_percentages (now : Z) (msgs : list ThinkGearMessage) :
  forall s : Sys,
    Forall validMessage msgs ->
    from_option percentages True (currentData s) ->
    Forall percentages (readings (emitted s)) ->
    Forall percentages (readings (emitted (feed now s msgs))).
Proof.
  induction msgs as [|m msgs IH]; intros s Hv Hc He; cbn; [exact He|].
  apply Forall_cons in Hv as [Hm Hv]. apply IH; [exact Hv| |].
  - rewrite handle_currentData. destruct (present _); [|exact Hc].
    now apply merge_percentages.
  - rewrite handle_readings. apply Forall_app. split; [exact He|].
    destruct (present _); [|constructor].
    apply Forall_singleton. now apply merge_percentages.
Qed.

End RangeFacts.

(** X2.  When every message carries eSense values within 0..100 and a
    poor-signal level that is not negative, every reading the handler
    emits has attention, meditation and signal quality within 0..100. *)
Theorem live_readings_in_range (now : Z) (cfg : NeuroSkyConfig)
    (msgs : list ThinkGearMessage) :
  Forall validMessage msgs ->
  Forall percentages (readings (emitted (feed now (init cfg) msgs))).
Proof.
  intros Hv. apply feed_percentages; [exact Hv | exact I | constructor].
Qed.

Lemma contactLost_valid : Forall validMessage contactLost.
Proof.
  repeat constructor; cbn; vm_compute; congruence.
Defined.

Lemma live_readings_in_range_witness :
  Forall validMessage contactLost
  /\ Forall percentages
       (readings (emitted (feed 1000 (init defaultConfig) contactLost))).
Proof.
  split; [exact contactLost_valid|].
  exact (live_readings_in_range 1000 defaultConfig contactLost
           contactLost_valid).
Defined.

(** ** The live handshake and the reconnect loop *)

(** X19.  In live mode, [connect] followed by the [open] event of the new
    socket connects the adapter: [connect] alone leaves the connected
    flag as it was, the [open] event sets it, sends the configuration
    frame (raw output off, format [Json]) to that socket and emits one
    [connected] event. *)
Theorem live_handshake (s : Sys) :
  isDemoMode s = false ->
  let n := length (sockets s) in
  let s' := run s [Connect Constructed; SockOpen n] in
  isConnected (step s (Connect Constructed)) = isConnected s
  /\ isConnected s' = true
  /\ socket s' = Some n
  /\ readyState n s' = Some OPEN
  /\ wire s' = wire s ++ [(n, ConfigFrame false "Json")]
  /\ emitted s' = emitted s ++ [EvConnected].
Proof.
  intros Hd n s'. subst s' n.
  assert (E1 : (sockets s ++ [CONNECTING]) !! length (sockets s)
               = Some CONNECTING) by (now apply list_lookup_middle).
  assert (E2 : <[length (sockets s) := OPEN]> (sockets s ++ [CONNECTING])
               !! length (sockets s) = Some OPEN)
    by (apply list_lookup_insert_eq; rewrite length_app; cbn; lia).
  unfold run. cbn [fold_left step]. unfold connect. rewrite Hd.
  cbn [fst newWebSocket]. unfold readyState.
  cbn [sockets set_socket set_sockets]. rewrite E1.
  unfold onOpen, readyState, setReadyState, emit, socketSend.
  cbn [socket sockets wire emitted isConnected set_socket set_sockets
       set_isConnected set_wire set_emitted].
  rewrite E2.
  cbn [socket sockets wire emitted isConnected set_socket set_sockets
       set_isConnected set_wire set_emitted].
  now repeat split.
Qed.

Lemma live_handshake_witness :
  isDemoMode (init defaultConfig) = false
  /\ isConnected (run (init defaultConfig) [Connect Constructed; SockOpen 0])
     = true.
Proof.
  split; [reflexivity|].
  exact (proj1 (proj2 (live_handshake (init defaultConfig) eq_refl))).
Defined.

Section ReconnectLoop.

Lemma onClose_frame (s : Sys) :
  isConnected (onClose s) = false
  /\ emitted (onClose s) = emitted s ++ [EvDisconnected]
  /\ isDemoMode (onClose s) = isDemoMode s
  /\ sockets (onClose s) = sockets s
  /\ socket (onClose s) = socket s.
Proof.
  unfold onClose, scheduleReconnect. cbn. repeat case_match; now repeat split.
Qed.

Lemma disconnect_timers_length (s : Sys) :
  length (timers (disconnect s)) = length (timers s).
Proof.
  rewrite disconnect_timers.
  destruct (demoInterval s), (reconnectInterval s); cbn;
    now rewrite ?length_alter.
Qed.

(** The live path of [connect]. *)
Lemma connect_live (s : Sys) :
  isDemoMode s = false ->
  socket (fst (connect Constructed s)) = Some (length (sockets s))
  /\ sockets (fst (connect Constructed s)) = sockets s ++ [CONNECTING].
Proof. intros Hd. unfold connect. rewrite Hd. now split. Qed.

End ReconnectLoop.

(** X7.  With auto-reconnect on, an explicit [disconnect] does not end the
    session: when the [close] event of the socket it closed arrives, the
    close listener arms the 5000 ms reconnect timer as for a dropped
    link, and when that timer fires the adapter constructs a new socket. *)
Theorem reconnect_after_disconnect (s : Sys) (id : nat) (r : ReadyState) :
  autoConnect (config s) = true ->
  socket s = Some id -> readyState id s = Some r -> liveSocket r = true ->
  let t := length (timers s) in
  let s1 := run s [Disconnect; SockClose id] in
  let s2 := step s1 (ReconnectFire t Constructed) in
  isConnected s1 = false
  /\ emitted s1 = emitted s ++ [EvDisconnected]
  /\ reconnectInterval s1 = Some t
  /\ timers s1 !! t = Some (mkTimer ReconnectTimeout 5000 true)
  /\ socket s2 = Some (length (sockets s))
  /\ readyState (length (sockets s)) s2 = Some CONNECTING.
Proof.
  intros Hauto Hsk Hr Hlive t s1 s2.
  pose proof (disconnect_fields s) as (_ & Hdm & _ & Hri & _ & Hem & _).
  pose proof (disconnect_timers_length s) as Hlen.
  assert (Hcfg : config (disconnect s) = config s) by apply config_frame.
  assert (Hcl : readyState id (disconnect s) = Some CLOSING).
  { unfold readyState in *. rewrite disconnect_sockets, Hsk. cbn.
    rewrite list_lookup_alter_eq, Hr. now destruct r. }
  set (x := setReadyState id CLOSED (disconnect s)).
  assert (Es1 : s1 = onClose x).
  { subst s1 x. unfold run. cbn [fold_left step]. now rewrite Hcl. }
  pose proof (onClose_frame x) as (Hc1 & He1 & Hd1 & Hs1 & _).
  pose proof (onClose_timers x) as Et.
  assert (Hx : config x = config s /\ reconnectInterval x = None
               /\ timers x = timers (disconnect s)).
  { subst x. cbn [config reconnectInterval timers setReadyState set_sockets].
    now rewrite Hcfg, Hri. }
  destruct Hx as (Hxc & Hxr & Hxt).
  rewrite Hxc, Hauto, Hxr, Hxt in Et. cbn [from_option] in Et.
  unfold Datatypes.id in Et.
  pose proof (f_equal snd Et) as Er. apply (f_equal fst) in Et.
  cbn [fst snd] in Et, Er. rewrite Hlen in Er. fold t in Er.
  assert (Ht : timers s1 !! t = Some (mkTimer ReconnectTimeout 5000 true)).
  { rewrite Es1, Et. apply list_lookup_middle. subst t. now rewrite Hlen. }
  assert (Hlive1 : isDemoMode (clearTimer t s1) = false).
  { change (isDemoMode s1 = false). rewrite Es1, Hd1. exact Hdm. }
  assert (Hsocks : length (sockets (clearTimer t s1)) = length (sockets s)).
  { change (length (sockets s1) = length (sockets s)).
    rewrite Es1, Hs1. subst x. cbn [sockets setReadyState set_sockets].
    rewrite length_insert, disconnect_sockets, Hsk. cbn [from_option].
    apply length_alter. }
  destruct (connect_live (clearTimer t s1) Hlive1) as [Hk Hks].
  assert (Es2 : s2 = fst (connect Constructed (clearTimer t s1))).
  { subst s2. cbn [step]. now rewrite Ht. }
  rewrite Es1 at 1 2 3. rewrite Hc1, He1, Er, Es2, Hk, Hsocks.
  repeat split; try assumption.
  - subst x. cbn [emitted setReadyState set_sockets]. now rewrite Hem.
  - unfold readyState. rewrite Hks, <- Hsocks. now apply list_lookup_middle.
Qed.

Lemma reconnect_after_disconnect_witness :
  let s := run (init (mkConfig true false)) [Connect Constructed; SockOpen 0]
  in
  autoConnect (config s) = true
  /\ socket s = Some 0%nat
  /\ liveSockets
       (run s [Disconnect; SockClose 0; ReconnectFire 0 Constructed])
     = 1%nat
  /\ socket (step (run s [Disconnect; SockClose 0])
                  (ReconnectFire 0 Constructed)) = Some 1%nat.
Proof.
  cbv zeta. split; [reflexivity|]. split; [reflexivity|].
  split; [reflexivity|].
  exact (proj1 (proj2 (proj2 (proj2 (proj2
    (reconnect_after_disconnect
       (run (init (mkConfig true false)) [Connect Constructed; SockOpen 0])
       0 OPEN eq_refl eq_refl eq_refl eq_refl)))))).
Defined.

(** ** Events of one message *)

(** X15.  One message emits, in this order, at most one reading, one
    blink and one raw sample.  The reading is emitted exactly when the
    message has an [eSense] object or a poor-signal level; a blink
    strength or a raw sample that is absent or zero emits nothing. *)
Theorem message_events (m : ThinkGearMessage) (now now' : Z) (s : Sys) :
  emitted (handleThinkGearMessage m now now' s)
  = emitted s
    ++ (if match eSense m with
           | Some _ => true
           | None => Js.defined (poorSignalLevel m)
           end
        then [EvData (mergeData (parseMessage m) (currentData s) now)]
        else [])
    ++ match blinkStrength m with
       | Some b => if nonzero b then [EvBlink b] else []
       | None => []
       end
    ++ match rawEeg m with
       | Some v => if nonzero v then [EvRawEeg v now'] else []
       | None => []
       end.
Proof.
  unfold handleThinkGearMessage, present, parseMessage, Js.truthy, nonzero.
  destruct m as [[[ea em]|] [l|] [b|] [v|]]; cbn;
    repeat case_match; cbn; rewrite <- ?app_assoc, ?app_nil_r; reflexivity.
Qed.

(** ** From the headset's poor-signal level to the badge *)

